(** * Telegram bot template: cache, scheduler and message helpers

    A shallow embedding of the parts of the bot that carry invariants:
    - [utils/helpers.py]   : [split_message];
    - [utils/gsheets.py]   : the time-boxed cache of [GoogleSheetsManager];
    - [utils/scheduler.py] : [_parse_admin_ids], [send_urgent_notification];
    - [handlers/payments.py] : [get_urgent_payments].

    Conventions.  A Python [str] is a [string] whose characters are the code
    points below 256 (the texts of the log records are copied from the
    source as they are, in UTF-8); a Python [int] is a [Z]; a [dict] with
    string keys is a [gmap string _]; [None] is [option]'s [None].
    Exceptions, logging, the clock and the network are explicit: see
    [Module Py]. *)

From Stdlib Require Import ZArith Ascii String List Bool Lia.
From stdpp Require Import base option list strings pretty gmap fin_maps.

Local Open Scope string_scope.
Local Open Scope list_scope.
Local Open Scope Z_scope.

(** ** Python strings *)

Module PyStr.

(** [len(s)] *)
Definition len (s : string) : Z := Z.of_nat (String.length s).

(** Truth value of a string: [bool(s)], false exactly on [""]. *)
Definition truthy (s : string) : bool :=
  match s with EmptyString => false | String _ _ => true end.

Fixpoint take (n : nat) (s : string) : string :=
  match n, s with
  | S n', String c s' => String c (take n' s')
  | _, _ => EmptyString
  end.

Fixpoint drop (n : nat) (s : string) : string :=
  match n, s with
  | S n', String _ s' => drop n' s'
  | _, _ => s
  end.

(** A slice bound [i] of a string of length [n], clamped as Python does:
    negative bounds count from the end. *)
Definition clamp (i : Z) (n : nat) : nat :=
  if i <? 0 then Z.to_nat (Z.max 0 (Z.of_nat n + i))
  else Nat.min (Z.to_nat i) n.

(** [s[:i]] *)
Definition slice_to (s : string) (i : Z) : string :=
  take (clamp i (String.length s)) s.

(** [s[i:]] *)
Definition slice_from (s : string) (i : Z) : string :=
  drop (clamp i (String.length s)) s.

(** [s.split(sep)] for a one-character separator: never the empty list. *)
Fixpoint split (sep : ascii) (s : string) : list string :=
  match s with
  | EmptyString => [EmptyString]
  | String c s' =>
      if Ascii.eqb c sep then EmptyString :: split sep s'
      else match split sep s' with
           | [] => [String c EmptyString]
           | w :: ws => String c w :: ws
           end
  end.

(** [c.isspace()] for the code points below 256. *)
Definition isspace (c : ascii) : bool :=
  let n := nat_of_ascii c in
  ((9 <=? n) && (n <=? 13) || (28 <=? n) && (n <=? 32)
   || (n =? 133) || (n =? 160))%nat.

Fixpoint lstrip (s : string) : string :=
  match s with
  | String c s' => if isspace c then lstrip s' else s
  | EmptyString => EmptyString
  end.

Fixpoint rstrip (s : string) : string :=
  match s with
  | EmptyString => EmptyString
  | String c s' =>
      match rstrip s' with
      | EmptyString => if isspace c then EmptyString else String c EmptyString
      | r => String c r
      end
  end.

(** [s.strip()] *)
Definition strip (s : string) : string := rstrip (lstrip s).

Definition newline : ascii := ascii_of_nat 10.
Definition nl : string := String newline EmptyString.

(** [c * n] for a one-character string. *)
Fixpoint repeat (n : nat) (c : ascii) : string :=
  match n with O => EmptyString | S n' => String c (repeat n' c) end.

End PyStr.

(** ** utils/helpers.py *)

Module Helpers.
Import PyStr.

(** The inner loop of [split_message]:
    [while len(line) > max_length:
         parts.append(line[:max_length]); line = line[max_length:]].
    It runs forever when [max_length <= 0]; [None] stands for that.  With
    [max_length >= 1] every round removes a character, so [fuel] equal to
    the length of the line is enough (see [cut_long_line_terminates]). *)
Fixpoint cut_long_line (fuel : nat) (parts : list string) (line : string)
    (max_length : Z) : option (list string * string) :=
  if len line >? max_length then
    match fuel with
    | O => None
    | S fuel' =>
        cut_long_line fuel' (parts ++ [slice_to line max_length])
          (slice_from line max_length) max_length
    end
  else Some (parts, line).

(** One round of [for line in lines], on the pair
    [(parts, current_part)]. *)
Definition split_step (max_length : Z) (acc : list string * string)
    (line : string) : option (list string * string) :=
  let '(parts, current_part) := acc in
  if len current_part + len line + 1 >? max_length then
    if truthy current_part then
      Some (parts ++ [strip current_part], line)
    else
      cut_long_line (String.length line) parts line max_length
  else
    Some (parts,
          if truthy current_part then current_part +:+ nl +:+ line
          else line).

Fixpoint split_loop (max_length : Z) (acc : list string * string)
    (lines : list string) : option (list string * string) :=
  match lines with
  | [] => Some acc
  | line :: rest =>
      match split_step max_length acc line with
      | None => None
      | Some acc' => split_loop max_length acc' rest
      end
  end.

(** [split_message(text, max_length=4096)].  [None]: the call does not
    return. *)
Definition split_message (text : string) (max_length : Z)
    : option (list string) :=
  if negb (truthy text) || (len text <=? max_length) then Some [text]
  else
    match split_loop max_length ([], EmptyString) (split newline text) with
    | None => None
    | Some (parts, current_part) =>
        Some (if truthy current_part then parts ++ [strip current_part]
              else parts)
    end.

(** The default value of [max_length]. *)
Definition default_max_length : Z := 4096.

(** A short first line followed by a line longer than a limit of 4. *)
Definition short_then_long : string := "a" +:+ nl +:+ "bbbbbb".

End Helpers.

(** ** Exceptions, logging and the outside world *)

Module Py.

(** The exceptions the code can meet.  All of them are instances of
    [Exception]; [HttpError] and [ValueError] are the two classes the
    code names in an [except] clause of their own.  The argument is the
    text the exception prints as. *)
Inductive exn :=
| HttpError (msg : string)
| ValueError (msg : string)
| Exception (msg : string).

Definition exn_str (e : exn) : string :=
  match e with HttpError m | ValueError m | Exception m => m end.

(** How a call ends: it returns a value or raises. *)
Inductive outcome (A : Type) :=
| Return (a : A)
| Raise (e : exn).
Arguments Return {A} a.
Arguments Raise {A} e.

Inductive level := INFO | WARNING | ERROR.

(** What an observer of the process sees: log records, requests to the
    spreadsheet service, messages handed to the chat platform. *)
Inductive event :=
| Log (lv : level) (msg : string)
| ValuesGet (spreadsheetId range : string)
| SendMessage (chat_id : Z) (text : string).

(** The state a method runs in: the object [self], the world outside the
    process, and the events so far (oldest first). *)
Record state (Self World : Type) := State {
  self : Self;
  world : World;
  trace : list event
}.
Arguments State {Self World} self world trace.
Arguments self {Self World} s.
Arguments world {Self World} s.
Arguments trace {Self World} s.

(** A method body: from a state to an outcome and the state it leaves. *)
Definition M (Self World A : Type) : Type :=
  state Self World -> outcome A * state Self World.

Section Monad.
Context {Self World : Type}.
Local Abbreviation M := (M Self World).

Definition ret {A} (a : A) : M A := fun s => (Return a, s).

Definition bind {A B} (m : M A) (k : A -> M B) : M B :=
  fun s =>
    match m s with
    | (Return a, s') => k a s'
    | (Raise e, s') => (Raise e, s')
    end.

Definition raise {A} (e : exn) : M A := fun s => (Raise e, s).

(** [try: body except ...: handler].  [handlers e] is the body of the
    first clause that matches [e], or [None] when no clause does and
    the exception goes on. *)
Definition try_except {A} (body : M A) (handlers : exn -> option (M A))
    : M A :=
  fun s =>
    match body s with
    | (Return a, s') => (Return a, s')
    | (Raise e, s') =>
        match handlers e with
        | Some h => h s'
        | None => (Raise e, s')
        end
    end.

Definition get_self : M Self := fun s => (Return (self s), s).

Definition set_self (f : Self -> Self) : M unit :=
  fun s => (Return tt, State (f (self s)) (world s) (trace s)).

Definition emit (ev : event) : M unit :=
  fun s => (Return tt, State (self s) (world s) (trace s ++ [ev])).

(** [logger.info], [logger.warning], [logger.error] *)
Definition log (lv : level) (msg : string) : M unit := emit (Log lv msg).

(** A call that leaves the process: the world answers and moves on. *)
Definition extern {A} (f : World -> outcome A * World) : M A :=
  fun s =>
    let '(r, w) := f (world s) in (r, State (self s) w (trace s)).

(** A pure question to the world (the environment variables). *)
Definition ask {A} (f : World -> A) : M A :=
  fun s => (Return (f (world s)), s).

(** [for x in xs: body(x)] *)
Fixpoint for_each {A} (xs : list A) (body : A -> M unit) : M unit :=
  match xs with
  | [] => ret tt
  | x :: rest => bind (body x) (fun _ => for_each rest body)
  end.

(** [[f(x) for x in xs]], left to right; the first exception ends it. *)
Fixpoint map_m {A B} (f : A -> M B) (xs : list A) : M (list B) :=
  match xs with
  | [] => ret []
  | x :: rest =>
      bind (f x) (fun y => bind (map_m f rest) (fun ys => ret (y :: ys)))
  end.

End Monad.

Module Notations.
Notation "x <- m ;; k" := (bind m (fun x => k))
  (at level 20, m at level 99, k at level 200, only parsing).
Notation "m ;;; k" := (bind m (fun _ => k))
  (at level 100, k at level 200, right associativity, only parsing).
End Notations.

(** What a trace shows: the requests made to the spreadsheet service,
    the messages handed to the chat platform, the errors logged. *)
Definition requests (tr : list event) : list (string * string) :=
  omap (fun ev => match ev with
                  | ValuesGet id range => Some (id, range)
                  | _ => None
                  end) tr.

Definition sends (tr : list event) : list (Z * string) :=
  omap (fun ev => match ev with
                  | SendMessage chat_id text => Some (chat_id, text)
                  | _ => None
                  end) tr.

Definition errors (tr : list event) : list string :=
  omap (fun ev => match ev with
                  | Log ERROR msg => Some msg
                  | _ => None
                  end) tr.

(** A [datetime] without time zone: the day, as the number [toordinal]
    gives, and the time of day in microseconds since midnight. *)
Record datetime := DateTime {
  day : Z;
  usec : Z
}.

(** The interface to everything outside the repository: the interpreter's
    library and the two remote services.

    - [time_time]: [time.time()], a reading of the clock; readings are
      exact numbers here (the unit is the clock's), not floats.
    - [datetime_now]: [datetime.now()].
    - [strptime s fmt]: [datetime.strptime(s, fmt)]; [None] is its
      [ValueError].
    - [int s]: [int(s)] on a string; [None] is its [ValueError].
    - [getenv]: [os.getenv].
    - [values_get_execute id range]:
      [service.spreadsheets().values().get(spreadsheetId=id,
      range=range).execute()]; the value returned is the ['values'] entry of
      the response, [None] when the response has none.
    - [bot_send_message chat_id text]: [await bot.send_message(...)]. *)
Class Runtime (World : Type) := {
  time_time : World -> Z * World;
  datetime_now : World -> datetime * World;
  strptime : string -> string -> option datetime;
  int : string -> option Z;
  getenv : string -> World -> option string;
  values_get_execute :
    string -> string -> World -> outcome (option (list (list string))) * World;
  bot_send_message : Z -> string -> World -> outcome unit * World
}.

End Py.

(** ** utils/gsheets.py *)

Module GSheets.
Import Py Py.Notations.

(** One row of a sheet: column name to cell text. *)
Abbreviation Row := (gmap string string).

(** The client object [build('sheets', 'v4', ...)] returns. *)
Inductive Service := SheetsService.

Record GoogleSheetsManager := Manager {
  sheets_id : option string;
  service : option Service;
  _cache : gmap string (list Row);
  _cache_timestamps : gmap string Z;
  _cache_duration : Z
}.

(** The fields [__init__] sets before it builds the service: empty
    caches and five minutes. *)
Definition init (sheets_id : option string) (service : option Service)
    : GoogleSheetsManager :=
  Manager sheets_id service ∅ ∅ 300.

Definition set_cache (f : gmap string (list Row) -> gmap string (list Row))
    (m : GoogleSheetsManager) : GoogleSheetsManager :=
  Manager (sheets_id m) (service m) (f (_cache m)) (_cache_timestamps m)
    (_cache_duration m).

Definition set_cache_timestamps (f : gmap string Z -> gmap string Z)
    (m : GoogleSheetsManager) : GoogleSheetsManager :=
  Manager (sheets_id m) (service m) (_cache m) (f (_cache_timestamps m))
    (_cache_duration m).

(** [not self.service or not self.sheets_id] is false: both are set, and
    the identifier is not the empty string. *)
Definition available (m : GoogleSheetsManager) : option string :=
  match service m, sheets_id m with
  | Some _, Some id => if PyStr.truthy id then Some id else None
  | _, _ => None
  end.

(** [while len(row) < len(headers): row.append('')] *)
Definition pad_row (headers row : list string) : list string :=
  row ++ replicate (length headers - length row) "".

(** The dictionary of one row:
    [for i, header in enumerate(headers):
         row_dict[header] = row[i] if i < len(row) else ''] *)
Definition row_dict (headers row : list string) : Row :=
  let row := pad_row headers row in
  fold_left (fun d ih => <[ih.2 := default "" (row !! ih.1)]> d)
    (imap pair headers) ∅.

Section Methods.
Context {World : Type} `{!Runtime World}.
Local Abbreviation M := (Py.M GoogleSheetsManager World).

Definition _fetch_sheet_data (sheet_name : string) : M (list Row) :=
  self <- get_self ;;
  match available self with
  | None =>
      log ERROR "Servicio de Google Sheets no disponible" ;;;
      ret []
  | Some id =>
      try_except
        (let range := sheet_name +:+ "!A:Z" in
         emit (ValuesGet id range) ;;;
         result <- extern (values_get_execute id range) ;;
         match default [] result with
         | [] =>
             log WARNING
               ("No se encontraron datos en la hoja " +:+ sheet_name) ;;;
             ret []
         | headers :: rows =>
             let data := map (row_dict headers) rows in
             log INFO ("Obtenidos " +:+ pretty (length data)
                       +:+ " registros de " +:+ sheet_name) ;;;
             ret data
         end)
        (fun e =>
           match e with
           | HttpError msg =>
               Some (log ERROR ("Error HTTP al obtener datos de "
                                +:+ sheet_name +:+ ": " +:+ msg) ;;;
                     ret [])
           | _ =>
               Some (log ERROR ("Error inesperado al obtener datos de "
                                +:+ sheet_name +:+ ": " +:+ exn_str e) ;;;
                     ret [])
           end)
  end.

Definition _is_cache_valid (sheet_name : string) : M bool :=
  self <- get_self ;;
  match _cache_timestamps self !! sheet_name with
  | None => ret false
  | Some cache_time =>
      current_time <- extern (fun w => let '(t, w') := time_time w in
                                       (Return t, w')) ;;
      ret (current_time - cache_time <? _cache_duration self)
  end.

Definition _update_cache (sheet_name : string) (data : list Row)
    : M unit :=
  set_self (set_cache <[sheet_name := data]>) ;;;
  now <- extern (fun w => let '(t, w') := time_time w in (Return t, w')) ;;
  set_self (set_cache_timestamps <[sheet_name := now]>).

(** The part of [get_sheet_data_sync] after the cache test failed. *)
Definition refetch (sheet_name : string) : M (list Row) :=
  data <- _fetch_sheet_data sheet_name ;;
  _update_cache sheet_name data ;;;
  ret data.

Definition get_sheet_data_sync (sheet_name : string) : M (list Row) :=
  try_except
    (valid <- _is_cache_valid sheet_name ;;
     if valid then
       self <- get_self ;;
       ret (default [] (_cache self !! sheet_name))
     else
       refetch sheet_name)
    (fun e =>
       Some (log ERROR ("Error al obtener datos de " +:+ sheet_name
                        +:+ ": " +:+ exn_str e) ;;;
             ret [])).

(** The coroutine [get_sheet_data]: the same steps, with the fetch run
    on a worker thread and awaited.  The model runs one call at a time,
    so the two forms coincide in it. *)
Definition get_sheet_data (sheet_name : string) : M (list Row) :=
  try_except
    (valid <- _is_cache_valid sheet_name ;;
     if valid then
       self <- get_self ;;
       ret (default [] (_cache self !! sheet_name))
     else
       data <- _fetch_sheet_data sheet_name ;;
       _update_cache sheet_name data ;;;
       ret data)
    (fun e =>
       Some (log ERROR ("Error al obtener datos de " +:+ sheet_name
                        +:+ ": " +:+ exn_str e) ;;;
             ret [])).

(** [clear_cache(sheet_name=None)].  The test is [if sheet_name:], so
    the empty name clears everything, as [None] does. *)
Definition clear_cache (sheet_name : option string) : M unit :=
  match sheet_name with
  | Some name =>
      if PyStr.truthy name then
        set_self (set_cache (delete name)) ;;;
        set_self (set_cache_timestamps (delete name)) ;;;
        log INFO ("Caché limpiado para " +:+ name)
      else
        set_self (set_cache (fun _ => ∅)) ;;;
        set_self (set_cache_timestamps (fun _ => ∅)) ;;;
        log INFO "Caché completamente limpiado"
  | None =>
      set_self (set_cache (fun _ => ∅)) ;;;
      set_self (set_cache_timestamps (fun _ => ∅)) ;;;
      log INFO "Caché completamente limpiado"
  end.

(** The fetch of a sheet cannot succeed in this state: there is no
    service or no spreadsheet identifier, or the request raises
    ([HttpError] or anything else). *)
Definition fetch_fails (sheet_name : string)
    (s : state GoogleSheetsManager World) : Prop :=
  match available (self s) with
  | None => True
  | Some id =>
      exists e,
        (values_get_execute id (sheet_name +:+ "!A:Z") (world s)).1
        = Raise e
  end.

End Methods.

(** *** The cache as a map of entries

    The specification speaks of one Cache Entry per table: the rows and
    the time of the fetch that brought them.  [represents E m] says that
    the two dictionaries of the manager [m] are the two halves of one map
    [E] of such entries. *)
Abbreviation entries := (gmap string (list Row * Z)).

Definition represents (E : entries) (m : GoogleSheetsManager) : Prop :=
  _cache m = fst <$> E /\ _cache_timestamps m = snd <$> E.

(** A refresh of [table] puts one new entry in place of the old one. *)
Definition refresh (table : string) (data : list Row) (now : Z)
    (E : entries) : entries :=
  <[table := (data, now)]> E.

(** An invalidation drops one entry or all of them; the choice is the
    one [clear_cache] makes on the truth value of its argument. *)
Definition invalidate (table : option string) (E : entries) : entries :=
  match table with
  | Some name => if PyStr.truthy name then delete name E else ∅
  | None => ∅
  end.

End GSheets.

(** ** handlers/payments.py *)

Module Payments.
Import Py Py.Notations GSheets.

(** The dictionary [get_urgent_payments] builds for a payment it keeps. *)
Record UrgentPayment := Urgent {
  fecha : datetime;
  concepto : string;
  monto : string;
  dias_restantes : Z
}.

Definition usec_per_day : Z := 86400000000.

(** [(a - b).days]: a [timedelta] is normalised with its seconds and
    microseconds non-negative, so [days] is the floor of the difference
    in days. *)
Definition days_between (a b : datetime) : Z :=
  ((day a - day b) * usec_per_day + (usec a - usec b)) / usec_per_day.

(** The position of a [datetime] on the time line, in microseconds. *)
Definition instant (d : datetime) : Z := day d * usec_per_day + usec d.

(** A list of numbers that never goes down. *)
Fixpoint ascending (l : list Z) : bool :=
  match l with
  | a :: (b :: _) as rest => (a <=? b) && ascending rest
  | _ => true
  end.

(** [d.get(key, default)] *)
Definition dict_get (d : Row) (key default : string) : string :=
  match d !! key with Some v => v | None => default end.

Section Methods.
Context {World : Type} `{!Runtime World}.

(** One round of [for payment in payments_data], on [urgent_payments].
    The [ValueError] of [strptime] is the [continue]. *)
Definition urgent_step (current_date : datetime)
    (urgent_payments : list UrgentPayment) (payment : Row)
    : list UrgentPayment :=
  match strptime (dict_get payment "fecha" "") "%Y-%m-%d" with
  | None => urgent_payments
  | Some payment_date =>
      let days_until := days_between payment_date current_date in
      if (0 <=? days_until) && (days_until <=? 7) then
        urgent_payments ++
          [Urgent payment_date (dict_get payment "concepto" "")
             (dict_get payment "monto" "") days_until]
      else urgent_payments
  end.

(** What one row adds to the result: the entry of a row whose date parses
    and lies zero to seven whole days after [current_date], nothing for
    any other row. *)
Definition urgent_entry (current_date : datetime) (payment : Row)
    : option UrgentPayment :=
  match strptime (dict_get payment "fecha" "") "%Y-%m-%d" with
  | None => None
  | Some payment_date =>
      let days_until := days_between payment_date current_date in
      if (0 <=? days_until) && (days_until <=? 7) then
        Some (Urgent payment_date (dict_get payment "concepto" "")
                (dict_get payment "monto" "") days_until)
      else None
  end.

(** [PaymentsHandler.get_urgent_payments].  The handler's one field is
    its [sheets_manager]; [self] in the state is that manager. *)
Definition get_urgent_payments
    : Py.M GoogleSheetsManager World (list UrgentPayment) :=
  try_except
    (payments_data <- get_sheet_data_sync "pagos" ;;
     match payments_data with
     | [] => ret []
     | _ :: _ =>
         current_date <- extern (fun w => let '(t, w') := datetime_now w in
                                          (Return t, w')) ;;
         ret (fold_left (urgent_step current_date) payments_data [])
     end)
    (fun e =>
       Some (log ERROR ("Error al obtener pagos urgentes: " +:+ exn_str e) ;;;
             ret [])).

End Methods.

End Payments.

(** ** utils/scheduler.py *)

Module Scheduler.
Import Py Py.Notations.

(** The client [Bot(token=...)] returns. *)
Inductive Bot := TelegramBot (token : string).

Record Scheduler := Sched {
  bot_token : option string;
  admin_user_ids : list Z;
  bot : option Bot
}.

Definition comma : ascii := ascii_of_nat 44.

Section Methods.
Context {World : Type} `{!Runtime World}.

(** [int(s)], raising as Python does. *)
Definition int_ {Self} (s : string) : Py.M Self World Z :=
  match int s with
  | Some n => ret n
  | None =>
      raise (ValueError ("invalid literal for int() with base 10: " +:+ s))
  end.

(** [_parse_admin_ids].  It runs inside [__init__] and reads nothing
    of [self]. *)
Definition _parse_admin_ids {Self} : Py.M Self World (list Z) :=
  admin_ids_str <-
    ask (fun w => default "" (getenv "ADMIN_USER_IDS" w)) ;;
  if negb (PyStr.truthy admin_ids_str) then ret []
  else
    try_except
      (map_m (fun uid => int_ (PyStr.strip uid))
         (filter (fun uid => PyStr.truthy (PyStr.strip uid) = true)
            (PyStr.split comma admin_ids_str)))
      (fun e =>
         match e with
         | ValueError _ =>
             Some (log ERROR "Error al parsear ADMIN_USER_IDS" ;;; ret [])
         | _ => None
         end).

(** The pieces of the variable that the comprehension keeps: those
    between commas that are not blank. *)
Definition admin_entries (admin_ids_str : string) : list string :=
  filter (fun uid => PyStr.truthy (PyStr.strip uid) = true)
    (PyStr.split comma admin_ids_str).

(** The recipient set as the specification words it: the identifiers of
    the valid entries in order, each invalid entry skipped. *)
Definition recipient_ids_skipping_invalid (admin_ids_str : string)
    : list Z :=
  omap (fun uid => int (PyStr.strip uid)) (admin_entries admin_ids_str).

(** [target_users = user_ids if user_ids else self.admin_user_ids] *)
Definition target_users (self : Scheduler) (user_ids : option (list Z))
    : list Z :=
  match user_ids with
  | Some (u :: us) => u :: us
  | Some [] | None => admin_user_ids self
  end.

(** The body of the loop of [send_urgent_notification] for one user. *)
Definition notify_one (message : string) (user_id : Z)
    : Py.M Scheduler World unit :=
  try_except
    (emit (SendMessage user_id message) ;;;
     extern (bot_send_message user_id message))
    (fun e =>
       Some (log ERROR ("Error al enviar notificación urgente a "
                        +:+ pretty user_id +:+ ": " +:+ exn_str e))).

(** The fan-out as the specification words it: every target in order
    gets one send, made in the world the send before it left, whatever
    that send did.  [attempts] lists the targets with what their send
    did, and gives the world after the last. *)
Fixpoint attempts (message : string) (targets : list Z) (w : World)
    : list (Z * outcome unit) * World :=
  match targets with
  | [] => ([], w)
  | user_id :: rest =>
      let '(r, w1) := bot_send_message user_id message w in
      let '(done, w2) := attempts message rest w1 in
      ((user_id, r) :: done, w2)
  end.

(** The record a failed attempt is to leave in the log; a send that
    returned leaves none. *)
Definition failure_record (attempt : Z * outcome unit) : option string :=
  match attempt.2 with
  | Return _ => None
  | Raise e =>
      Some ("Error al enviar notificación urgente a "
            +:+ pretty attempt.1 +:+ ": " +:+ exn_str e)
  end.

(** What an attempt is to leave in the trace: the message handed to the
    platform, then the record of its failure when it failed. *)
Definition attempt_events (message : string) (attempt : Z * outcome unit)
    : list event :=
  SendMessage attempt.1 message ::
  match failure_record attempt with
  | Some msg => [Log ERROR msg]
  | None => []
  end.

Definition send_urgent_notification (message : string)
    (user_ids : option (list Z)) : Py.M Scheduler World unit :=
  try_except
    (self <- get_self ;;
     match bot self with
     | None => ret tt
     | Some _ =>
         let targets := target_users self user_ids in
         for_each targets (notify_one message) ;;;
         log INFO ("Notificación urgente enviada a "
                   +:+ pretty (length targets) +:+ " usuarios")
     end)
    (fun e =>
       Some (log ERROR ("Error al enviar notificación urgente: "
                        +:+ exn_str e))).

End Methods.

End Scheduler.

(** ** utils/helpers.py, the other helpers *)

Module HelpersRest.
Import PyStr Py.

(** [truncate_text(text, max_length=100, suffix="...")] *)
Definition truncate_text (text : string) (max_length : Z) (suffix : string)
    : string :=
  if negb (truthy text) || (len text <=? max_length) then text
  else slice_to text (max_length - len suffix) +:+ suffix.

(** One round of [for button in buttons] in [create_inline_keyboard], on
    the pair [(keyboard, current_row)]. *)
Definition keyboard_step {A} (max_buttons_per_row : Z)
    (acc : list (list A) * list A) (button : A) : list (list A) * list A :=
  let '(keyboard, current_row) := acc in
  let current_row := current_row ++ [button] in
  if Z.of_nat (length current_row) >=? max_buttons_per_row
  then (keyboard ++ [current_row], [])
  else (keyboard, current_row).

(** [create_inline_keyboard(buttons, max_buttons_per_row=2)] *)
Definition create_inline_keyboard {A} (buttons : list A)
    (max_buttons_per_row : Z) : list (list A) :=
  let '(keyboard, current_row) :=
    fold_left (keyboard_step max_buttons_per_row) buttons ([], []) in
  match current_row with
  | [] => keyboard
  | _ :: _ => keyboard ++ [current_row]
  end.

(** The characters of the class that [sanitize_filename] removes, by code
    point: the less and greater signs, the colon, the double quote, the
    slash, the backslash, the bar, the question mark and the star. *)
Definition forbidden_in_filename (c : ascii) : bool :=
  existsb (Nat.eqb (nat_of_ascii c)) [60; 62; 58; 34; 47; 92; 124; 63; 42]%nat.

(** [re.sub(class, '', s)] for a class of single characters. *)
Fixpoint remove_chars (class : ascii -> bool) (s : string) : string :=
  match s with
  | EmptyString => EmptyString
  | String c s' =>
      if class c then remove_chars class s'
      else String c (remove_chars class s')
  end.

(** Every character of [s] satisfies [p]. *)
Fixpoint all_chars (p : ascii -> bool) (s : string) : bool :=
  match s with
  | EmptyString => true
  | String c s' => p c && all_chars p s'
  end.

(** [sanitize_filename(filename)] *)
Definition sanitize_filename (filename : string) : string :=
  let filename := remove_chars forbidden_in_filename filename in
  let filename :=
    if len filename >? 255 then slice_to filename 255 else filename in
  strip filename.

(** [date.weekday()]: Monday is 0; day 1 of the calendar is a Monday. *)
Definition weekday (date : datetime) : Z := (day date + 6) mod 7.

(** [is_weekend(date)] *)
Definition is_weekend (date : datetime) : bool := weekday date >=? 5.

(** [a <= b] on two [datetime]s. *)
Definition datetime_le (a b : datetime) : bool :=
  (day a <? day b) || ((day a =? day b) && (usec a <=? usec b)).

(** The last day a [datetime] can hold, 9999-12-31. *)
Definition max_ordinal : Z := 3652059.

(** [d + timedelta(days=1)]: [OverflowError] past the last day. *)
Definition add_one_day (d : datetime) : outcome datetime :=
  if day d + 1 <=? max_ordinal then Return (DateTime (day d + 1) (usec d))
  else Raise (Exception "date value out of range").

(** The loop of [get_business_days].  [None]: out of fuel. *)
Fixpoint business_loop (fuel : nat) (business_days : Z)
    (current_date end_date : datetime) : option (outcome Z) :=
  if datetime_le current_date end_date then
    match fuel with
    | O => None
    | S fuel' =>
        let business_days :=
          if negb (is_weekend current_date) then business_days + 1
          else business_days in
        match add_one_day current_date with
        | Return next => business_loop fuel' business_days next end_date
        | Raise e => Some (Raise e)
        end
    end
  else Some (Return business_days).

(** [get_business_days(start_date, end_date)].  Every round moves
    [current_date] one day on, so the number of days from the first to
    the last is fuel enough (see [get_business_days_returns]). *)
Definition get_business_days (start_date end_date : datetime)
    : option (outcome Z) :=
  business_loop (Z.to_nat (day end_date - day start_date + 1)) 0
    start_date end_date.

(** Of the [n] days from day [d] on, those that are not Saturday or
    Sunday. *)
Fixpoint workdays (d : Z) (n : nat) : Z :=
  match n with
  | O => 0
  | S n' => (if is_weekend (DateTime d 0) then 0 else 1) + workdays (d + 1) n'
  end.

(** The number of dates the loop of [get_business_days] visits: the days
    from the first to the last, the last one counted only if the time of
    day of the start is not after that of the end. *)
Definition days_visited (start_date end_date : datetime) : nat :=
  Z.to_nat (day end_date - day start_date
            + (if usec start_date <=? usec end_date then 1 else 0)).

End HelpersRest.
(** ** A concrete interpreter library and world

    The theorems below hold for every [Runtime].  To run the code on
    concrete inputs the library functions are given here for the strings
    the code passes them, and the world is one that answers the same way
    every time. *)

Module Concrete.
Import Py.

Definition digit (c : ascii) : option Z :=
  let n := nat_of_ascii c in
  if ((48 <=? n) && (n <=? 57))%nat then Some (Z.of_nat n - 48) else None.

(** Decimal digits with single underscores between them. *)
Fixpoint digits (s : string) (acc : Z) : option Z :=
  match s with
  | EmptyString => Some acc
  | String c rest =>
      if Ascii.eqb c "_"%char then
        match rest with
        | String d _ =>
            match digit d with Some _ => digits rest acc | None => None end
        | EmptyString => None
        end
      else
        match digit c with
        | Some v => digits rest (10 * acc + v)
        | None => None
        end
  end.

(** How many digits a string has. *)
Fixpoint count_digits (s : string) : Z :=
  match s with
  | EmptyString => 0
  | String c rest =>
      (match digit c with Some _ => 1 | None => 0 end) + count_digits rest
  end.

(** A number in decimal digits.  One of more than 4300 digits is refused
    with a [ValueError], the interpreter's default for
    [sys.int_max_str_digits]. *)
Definition number (s : string) : option Z :=
  match s with
  | String c _ =>
      match digit c with
      | Some _ => if 4300 <? count_digits s then None else digits s 0
      | None => None
      end
  | EmptyString => None
  end.

(** [int(s)] in base ten: blanks around, a sign, digits. *)
Definition py_int (s : string) : option Z :=
  match PyStr.strip s with
  | String "-" rest => Z.opp <$> number rest
  | String "+" rest => number rest
  | t => number t
  end.

Definition is_leap (y : Z) : bool :=
  (y mod 4 =? 0) && (negb (y mod 100 =? 0) || (y mod 400 =? 0)).

Definition days_in_month (y m : Z) : Z :=
  if m =? 2 then (if is_leap y then 29 else 28)
  else if (m =? 4) || (m =? 6) || (m =? 9) || (m =? 11) then 30
  else 31.

Definition days_before_year (y : Z) : Z :=
  let p := y - 1 in p * 365 + p / 4 - p / 100 + p / 400.

Fixpoint days_before_month (y : Z) (m : nat) : Z :=
  match m with
  | O => 0
  | S m' =>
      match m' with
      | O => 0
      | _ => days_before_month y m' + days_in_month y (Z.of_nat m')
      end
  end.

(** [date(y, m, d).toordinal()], or nothing when there is no such day. *)
Definition ordinal (y m d : Z) : option Z :=
  if (1 <=? y) && (1 <=? m) && (m <=? 12) && (1 <=? d)
     && (d <=? days_in_month y m)
  then Some (days_before_year y + days_before_month y (Z.to_nat m) + d)
  else None.

(** The directive [%m]: [1[0-2]|0[1-9]|[1-9]], first alternative first.
    The value and what is left of the string. *)
Definition month_field (s : string) : option (Z * string) :=
  match s with
  | String a (String b rest as tl) =>
      match digit a, digit b with
      | Some 1, Some v => if v <=? 2 then Some (10 + v, rest)
                          else Some (1, tl)
      | Some 0, Some v => if 1 <=? v then Some (v, rest) else None
      | Some u, _ => if 1 <=? u then Some (u, tl) else None
      | None, _ => None
      end
  | String a EmptyString =>
      match digit a with
      | Some u => if 1 <=? u then Some (u, EmptyString) else None
      | None => None
      end
  | EmptyString => None
  end.

(** The directive [%d]: [3[0-1]|[1-2]\d|0[1-9]|[1-9]| [1-9]]. *)
Definition day_field (s : string) : option (Z * string) :=
  match s with
  | String a (String b rest as tl) =>
      match digit a, digit b with
      | Some 3, Some v => if v <=? 1 then Some (30 + v, rest)
                          else Some (3, tl)
      | Some 0, Some v => if 1 <=? v then Some (v, rest) else None
      | Some u, Some v => if u <=? 2 then Some (10 * u + v, rest)
                          else Some (u, tl)
      | Some u, None => if 1 <=? u then Some (u, tl) else None
      | None, Some v => if Ascii.eqb a " "%char && (1 <=? v)
                        then Some (v, rest) else None
      | None, None => None
      end
  | String a EmptyString =>
      match digit a with
      | Some u => if 1 <=? u then Some (u, EmptyString) else None
      | None => None
      end
  | EmptyString => None
  end.

(** [datetime.strptime(s, '%Y-%m-%d')]: four digits, a dash, the month,
    a dash, the day, and nothing after.  Other formats are not used by
    the code and are not given a meaning. *)
Definition py_strptime (s fmt : string) : option datetime :=
  if negb (String.eqb fmt "%Y-%m-%d") then None
  else
    match s with
    | String y1 (String y2 (String y3 (String y4 (String "-" s1)))) =>
        match digit y1, digit y2, digit y3, digit y4 with
        | Some a, Some b, Some c, Some d =>
            match month_field s1 with
            | Some (m, String "-" s2) =>
                match day_field s2 with
                | Some (dd, EmptyString) =>
                    (fun o => DateTime o 0)
                      <$> ordinal (1000 * a + 100 * b + 10 * c + d) m dd
                | _ => None
                end
            | _ => None
            end
        | _, _, _, _ => None
        end
    | _ => None
    end.

(** A world that does not change: the clock, the calendar, the
    environment variables, the answer of the spreadsheet service for a
    range, and the fate of a message to a chat. *)
Record fixed_world := FixedWorld {
  clock : Z;
  calendar : datetime;
  environ : gmap string string;
  sheets : string -> outcome (option (list (list string)));
  delivery : Z -> outcome unit
}.

#[export] Instance runtime : Runtime fixed_world := {
  time_time w := (clock w, w);
  datetime_now w := (calendar w, w);
  strptime := py_strptime;
  int := py_int;
  getenv name w := environ w !! name;
  values_get_execute _ range w := (sheets w range, w);
  bot_send_message chat_id _ w := (delivery w chat_id, w)
}.

End Concrete.

(** ** Concrete inputs

    The states the examples below run in.  Today is 2024-03-10, day
    738955 of the calendar, and it is 09:05. *)

Module Inputs.
Import Py GSheets Scheduler Concrete.

Definition today : Z := 738955.

Definition five_past_nine : datetime := DateTime today 32700000000.

(** A sheet with a payment due today, one in three days, one in ten days,
    one with a date that is no date, and one due yesterday. *)
Definition pagos_sheet : list (list string) :=
  [ ["fecha"; "concepto"; "monto"];
    ["2024-03-10"; "Matricula"; "100"];
    ["2024-03-13"; "Mensualidad"; "50"];
    ["2024-03-20"; "Examen"; "20"];
    ["invalid-date"; "Otro"; "5"];
    ["2024-03-09"; "Mora"; "7"] ].

(** A sheet whose rows are not in the order of their dates. *)
Definition unsorted_sheet : list (list string) :=
  [ ["fecha"; "concepto"; "monto"];
    ["2024-03-13"; "Mensualidad"; "50"];
    ["2024-03-11"; "Matricula"; "100"] ].

(** A sheet with payments due today, tomorrow, and in seven, eight and
    nine days. *)
Definition horizon_sheet : list (list string) :=
  [ ["fecha"; "concepto"; "monto"];
    ["2024-03-10"; "Hoy"; "1"];
    ["2024-03-11"; "Manana"; "2"];
    ["2024-03-17"; "Siete"; "3"];
    ["2024-03-18"; "Ocho"; "4"];
    ["2024-03-19"; "Nueve"; "5"] ].

(** The rows of [pagos_sheet] as the manager returns them. *)
Definition pagos_rows : list Row :=
  map (row_dict ["fecha"; "concepto"; "monto"])
    [ ["2024-03-10"; "Matricula"; "100"];
      ["2024-03-13"; "Mensualidad"; "50"];
      ["2024-03-20"; "Examen"; "20"];
      ["invalid-date"; "Otro"; "5"];
      ["2024-03-09"; "Mora"; "7"] ].

(** A world where the sheet [pagos] holds [values], the variable
    [ADMIN_USER_IDS] is ["1,abc,2"], and messages to chat 2 are refused. *)
Definition world_with (now : datetime) (values : list (list string))
    : fixed_world :=
  FixedWorld 1100 now {["ADMIN_USER_IDS" := "1,abc,2"]}
    (fun range =>
       if String.eqb range "pagos!A:Z" then Return (Some values)
       else Return None)
    (fun chat_id =>
       if chat_id =? 2 then Raise (Exception "Forbidden") else Return tt).

(** A world where every request to the spreadsheet service fails. *)
Definition world_down : fixed_world :=
  FixedWorld 1100 five_past_nine ∅
    (fun _ => Raise (HttpError "503 Service Unavailable"))
    (fun _ => Return tt).

(** A manager fresh from [__init__], and one that stored the rows of
    [pagos] at time 1000. *)
Definition manager_new : GoogleSheetsManager :=
  init (Some "sheet-1") (Some SheetsService).

Definition manager_cached : GoogleSheetsManager :=
  Manager (Some "sheet-1") (Some SheetsService)
    {["pagos" := pagos_rows]} {["pagos" := 1000]} 300.


Definition scheduler_with_bot : Scheduler :=
  Sched (Some "token") [7] (Some (TelegramBot "token")).

End Inputs.

(** * Properties *)

(** ** [split_message] *)

Module HelpersFacts.
Import PyStr Helpers.

Lemma length_drop (n : nat) (s : string) :
  String.length (drop n s) = (String.length s - n)%nat.
Proof.
  revert s; induction n as [|n IH]; intros [|c s]; simpl; auto.
Qed.

Lemma clamp_positive (i : Z) (n : nat) :
  0 < i -> Z.of_nat n > i -> (0 < clamp i n <= n)%nat.
Proof.
  intros Hi Hn. unfold clamp.
  destruct (Z.ltb_spec i 0); lia.
Qed.

(** With a positive limit the inner loop ends, however long the line. *)
Lemma cut_long_line_terminates (max_length : Z) :
  0 < max_length ->
  forall fuel parts line,
    (String.length line <= fuel)%nat ->
    exists parts' rest,
      cut_long_line fuel parts line max_length = Some (parts', rest).
Proof.
  intros Hpos. induction fuel as [|fuel IH]; intros parts line Hlen; simpl.
  - destruct line; [|simpl in Hlen; lia].
    destruct (Z.gtb_spec (len "") max_length) as [Hgt|Hle]; [|eauto].
    unfold len in Hgt; simpl in Hgt; lia.
  - destruct (Z.gtb_spec (len line) max_length) as [Hgt|Hle]; [|eauto].
    apply IH. unfold slice_from. rewrite length_drop.
    unfold len in Hgt.
    pose proof (clamp_positive max_length (String.length line) Hpos).
    lia.
Qed.

Lemma split_step_terminates (max_length : Z) acc line :
  0 < max_length -> exists acc', split_step max_length acc line = Some acc'.
Proof.
  intros Hpos. destruct acc as [parts current_part]. unfold split_step.
  destruct (_ >? _); [|eauto].
  destruct (truthy current_part); [eauto|].
  destruct (cut_long_line_terminates max_length Hpos
              (String.length line) parts line) as (p & r & ->); eauto.
Qed.

Lemma split_loop_terminates (max_length : Z) lines :
  0 < max_length ->
  forall acc, exists acc', split_loop max_length acc lines = Some acc'.
Proof.
  intros Hpos. induction lines as [|line rest IH]; intros acc; simpl.
  - eauto.
  - destruct (split_step_terminates max_length acc line Hpos) as [acc' ->].
    apply IH.
Qed.

(** For a positive limit [split_message] returns. *)
Lemma split_message_terminates (text : string) (max_length : Z) :
  0 < max_length -> exists parts, split_message text max_length = Some parts.
Proof.
  intros Hpos. unfold split_message.
  destruct (_ || _); [eauto|].
  destruct (split_loop_terminates max_length (split newline text) Hpos
              ([], EmptyString)) as [[parts cur] ->].
  eauto.
Qed.

(** C10.  A text no longer than the limit, the empty text included, comes
    back as the one-element list holding it, unchanged. *)
Theorem split_message_within_limit (text : string) (max_length : Z) :
  len text <= max_length -> split_message text max_length = Some [text].
Proof.
  intros Hle. unfold split_message.
  destruct (Z.leb_spec (len text) max_length); [|lia].
  now rewrite orb_true_r.
Qed.

Lemma split_message_within_limit_witness :
  len "hola" <= 4096 /\ split_message "hola" 4096 = Some ["hola"].
Proof.
  split; [vm_compute; discriminate|].
  apply (split_message_within_limit "hola" 4096). vm_compute; discriminate.
Defined.

(** The empty text is returned as it is for every limit, also a
    non-positive one. *)
Lemma split_message_empty (max_length : Z) :
  split_message "" max_length = Some [""].
Proof. reflexivity. Qed.

(** C2.  The text ["a\nbbbbbb"] has 8 characters; with the limit 4 its
    second line, 6 characters long, comes back whole as the second chunk:
    the hard cut is only made when no part is pending. *)
Theorem split_message_chunk_over_limit :
  split_message short_then_long 4 = Some ["a"; "bbbbbb"]
  /\ ~ Forall (fun chunk => len chunk <= 4) ["a"; "bbbbbb"].
Proof.
  split; [reflexivity|].
  intros H. apply Forall_cons_1 in H as [_ H].
  apply Forall_cons_1 in H as [H _]. vm_compute in H. now apply H.
Qed.

(** The same at the size the specification names: 9000 characters, limit
    4096; the second chunk has 8998 characters. *)
Lemma split_message_9000 :
  let text := "a" +:+ nl +:+ repeat 8998 "b" in
  len text = 9000
  /\ split_message text 4096 = Some ["a"; repeat 8998 "b"]
  /\ len (repeat 8998 "b") = 8998.
Proof. vm_compute. auto. Qed.

(** A text made of line breaks only yields no chunk at all. *)
Lemma split_message_only_newlines :
  split_message (nl +:+ nl +:+ nl) 2 = Some [].
Proof. reflexivity. Qed.

(** A text without line breaks is cut into pieces of the limit. *)
Lemma split_message_hard_cut :
  split_message "abcdefghij" 4 = Some ["abcd"; "efgh"; "ij"].
Proof. reflexivity. Qed.

End HelpersFacts.

(** ** The cache of [GoogleSheetsManager] *)

Module GSheetsFacts.
Import Py Py.Notations GSheets.

Lemma requests_app (tr1 tr2 : list event) :
  requests (tr1 ++ tr2) = requests tr1 ++ requests tr2.
Proof. apply omap_app. Qed.

Lemma errors_app (tr1 tr2 : list event) :
  errors (tr1 ++ tr2) = errors tr1 ++ errors tr2.
Proof. apply omap_app. Qed.

Section Cache.
Context {World : Type} `{!Runtime World}.
Implicit Types (s : GoogleSheetsManager) (w : World) (tr : list event).
Implicit Types (T : string) (σ : state GoogleSheetsManager World).

(** *** What each method does to a state *)

Lemma is_cache_valid_absent T σ :
  _cache_timestamps (self σ) !! T = None ->
  _is_cache_valid T σ = (Return false, σ).
Proof.
  intros Hts. unfold _is_cache_valid, bind, get_self.
  now rewrite Hts.
Qed.

Lemma is_cache_valid_present T σ t0 :
  _cache_timestamps (self σ) !! T = Some t0 ->
  _is_cache_valid T σ =
    (Return ((time_time (world σ)).1 - t0 <? _cache_duration (self σ)),
     State (self σ) (time_time (world σ)).2 (trace σ)).
Proof.
  intros Hts. unfold _is_cache_valid, bind, get_self, extern, ret.
  rewrite Hts. destruct (time_time (world σ)) as [t w']. reflexivity.
Qed.

Lemma update_cache_run T (data : list Row) σ :
  _update_cache T data σ =
    (Return tt,
     State (Manager (sheets_id (self σ)) (service (self σ))
              (<[T := data]> (_cache (self σ)))
              (<[T := (time_time (world σ)).1]> (_cache_timestamps (self σ)))
              (_cache_duration (self σ)))
       (time_time (world σ)).2 (trace σ)).
Proof.
  unfold _update_cache, bind, set_self, extern. simpl.
  destruct (time_time (world σ)) as [t w']. reflexivity.
Qed.

(** The fetch always returns; it leaves the manager as it was, and the
    service is asked once when it is there and not at all otherwise. *)
Lemma fetch_returns T σ :
  exists data σ',
    _fetch_sheet_data T σ = (Return data, σ')
    /\ self σ' = self σ
    /\ requests (trace σ') =
         requests (trace σ) ++
           match available (self σ) with
           | Some id => [(id, T +:+ "!A:Z")]
           | None => []
           end.
Proof.
  destruct σ as [s w tr].
  unfold _fetch_sheet_data, bind, get_self, try_except, log, emit, extern, ret.
  simpl. destruct (available s) as [id|]; simpl.
  - destruct (values_get_execute id (T +:+ "!A:Z") w) as [[result|e] w'].
    + destruct (default [] result) as [|headers rows]; simpl;
        eexists _, _; (split; [reflexivity|]); (split; [reflexivity|]);
        simpl; rewrite !requests_app; simpl; now rewrite app_nil_r.
    + destruct e; simpl;
        eexists _, _; (split; [reflexivity|]); (split; [reflexivity|]);
        simpl; rewrite !requests_app; simpl; now rewrite app_nil_r.
  - eexists _, _; (split; [reflexivity|]); (split; [reflexivity|]).
    simpl. rewrite requests_app. reflexivity.
Qed.

(** When the fetch cannot succeed it returns no rows and logs one error. *)
Lemma fetch_failure T σ :
  fetch_fails T σ ->
  exists msg σ',
    _fetch_sheet_data T σ = (Return [], σ')
    /\ errors (trace σ') = errors (trace σ) ++ [msg].
Proof.
  destruct σ as [s w tr]. unfold fetch_fails.
  unfold _fetch_sheet_data, bind, get_self, try_except, log, emit, extern, ret.
  simpl. destruct (available s) as [id|]; simpl.
  - intros [e He].
    destruct (values_get_execute id (T +:+ "!A:Z") w) as [r w'].
    simpl in He; subst r.
    destruct e; simpl; eexists _, _; (split; [reflexivity|]);
      simpl; rewrite !errors_app; simpl; now rewrite app_nil_r.
  - intros _. eexists _, _; (split; [reflexivity|]).
    simpl. now rewrite errors_app.
Qed.

(** The manager after [_update_cache] stored [data] under [T] at [now]. *)
Lemma refetch_run T σ :
  exists data σf,
    _fetch_sheet_data T σ = (Return data, σf)
    /\ self σf = self σ
    /\ refetch T σ =
         (Return data,
          State (Manager (sheets_id (self σ)) (service (self σ))
                   (<[T := data]> (_cache (self σ)))
                   (<[T := (time_time (world σf)).1]>
                      (_cache_timestamps (self σ)))
                   (_cache_duration (self σ)))
            (time_time (world σf)).2 (trace σf)).
Proof.
  destruct (fetch_returns T σ) as (data & σf & Hf & Hself & _).
  exists data, σf. split; [exact Hf|]. split; [exact Hself|].
  unfold refetch, bind. rewrite Hf, update_cache_run. unfold ret.
  now rewrite Hself.
Qed.

(** When the cache test fails, both forms of [get] are the refetch. *)
Lemma get_miss T σ σ1 :
  _is_cache_valid T σ = (Return false, σ1) ->
  get_sheet_data_sync T σ = refetch T σ1
  /\ get_sheet_data T σ = refetch T σ1.
Proof.
  intros Hv.
  destruct (refetch_run T σ1) as (data & σf & Hf & Hself & Hr).
  split; [unfold get_sheet_data_sync|unfold get_sheet_data];
    unfold try_except; unfold bind at 1; rewrite Hv;
    unfold refetch in *; now rewrite Hr.
Qed.

(** When the cache test succeeds, both forms return what the cache holds
    and touch nothing. *)
Lemma get_hit T σ σ1 :
  _is_cache_valid T σ = (Return true, σ1) ->
  get_sheet_data_sync T σ = (Return (default [] (_cache (self σ1) !! T)), σ1)
  /\ get_sheet_data T σ = (Return (default [] (_cache (self σ1) !! T)), σ1).
Proof.
  intros Hv. unfold get_sheet_data_sync, get_sheet_data, try_except, bind.
  rewrite Hv. auto.
Qed.

Lemma is_cache_valid_returns T σ :
  exists (b : bool) σ1,
    _is_cache_valid T σ = (Return b, σ1)
    /\ self σ1 = self σ /\ trace σ1 = trace σ.
Proof.
  destruct (_cache_timestamps (self σ) !! T) as [t0|] eqn:Hts.
  - rewrite (is_cache_valid_present T σ t0 Hts). eauto.
  - rewrite (is_cache_valid_absent T σ Hts). eauto.
Qed.

Lemma clear_cache_run (arg : option string) σ :
  exists msg,
    clear_cache arg σ =
      (Return tt,
       State (Manager (sheets_id (self σ)) (service (self σ))
                match arg with
                | Some name =>
                    if PyStr.truthy name then delete name (_cache (self σ))
                    else ∅
                | None => ∅
                end
                match arg with
                | Some name =>
                    if PyStr.truthy name
                    then delete name (_cache_timestamps (self σ))
                    else ∅
                | None => ∅
                end
                (_cache_duration (self σ)))
         (world σ) (trace σ ++ [Log INFO msg])).
Proof.
  destruct σ as [s w tr].
  destruct arg as [name|]; [destruct (PyStr.truthy name) eqn:Hn|];
    unfold clear_cache; try rewrite Hn; eexists; reflexivity.
Qed.


(** *** The claims *)

(** C9.  A [get] of a table whose entry is fresh returns what the cache
    holds and leaves the manager (both dictionaries, for every table) and
    the trace as they were: nothing is fetched.  Only the clock was read.
    The coroutine [get_sheet_data] does the same. *)
Theorem get_fresh_changes_nothing T σ (t0 : Z) :
  _cache_timestamps (self σ) !! T = Some t0 ->
  (time_time (world σ)).1 - t0 < _cache_duration (self σ) ->
  let σ' := State (self σ) (time_time (world σ)).2 (trace σ) in
  get_sheet_data_sync T σ = (Return (default [] (_cache (self σ) !! T)), σ')
  /\ get_sheet_data T σ = (Return (default [] (_cache (self σ) !! T)), σ').
Proof.
  intros Hts Hfresh σ'. apply (get_hit T σ σ').
  rewrite (is_cache_valid_present T σ t0 Hts).
  destruct (Z.ltb_spec ((time_time (world σ)).1 - t0)
              (_cache_duration (self σ))); [reflexivity | lia].
Qed.



(** C6.  [get] always returns.  When the entry is missing or stale and the
    fetch cannot succeed (no service, no identifier, or a request that
    raises), it returns the empty list, and exactly one error is logged. *)
Theorem failed_fetch_gives_empty T σ :
  (exists data σ', get_sheet_data_sync T σ = (Return data, σ'))
  /\ (forall σ1,
        _is_cache_valid T σ = (Return false, σ1) ->
        fetch_fails T σ1 ->
        exists msg σ',
          get_sheet_data_sync T σ = (Return [], σ')
          /\ errors (trace σ') = errors (trace σ) ++ [msg]).
Proof.
  split.
  - destruct (is_cache_valid_returns T σ) as ([|] & σ1 & Hv & _ & _).
    + destruct (get_hit T σ σ1 Hv) as [-> _]. eauto.
    + destruct (get_miss T σ σ1 Hv) as [-> _].
      destruct (refetch_run T σ1) as (data & σf & _ & _ & ->). eauto.
  - intros σ1 Hv Hfail.
    destruct (is_cache_valid_returns T σ) as (b & σ1' & Hv' & _ & Htr).
    rewrite Hv in Hv'. injection Hv' as <- <-.
    destruct (get_miss T σ σ1 Hv) as [-> _].
    destruct (fetch_failure T σ1 Hfail) as (msg & σf & Hf & Herr).
    destruct (refetch_run T σ1) as (data' & σf' & Hf' & _ & ->).
    rewrite Hf in Hf'. injection Hf' as <- <-.
    exists msg. eexists. split; [reflexivity|]. simpl.
    now rewrite Herr, Htr.
Qed.

(** C8.  The two dictionaries are always the two halves of one map of
    entries: this holds at the start, [_update_cache] replaces the entry of
    its table by the pair of the new rows and the time read in the same
    call, [clear_cache] drops the entry or all entries from both, and a
    [get] keeps it.  So both dictionaries have the same tables, and the
    rows and the time stamp of a table are those of one entry. *)
Theorem cache_entries_stay_paired :
  (forall sid svc, represents ∅ (init sid svc))
  /\ (forall (E : entries) σ T (data : list Row),
        represents E (self σ) ->
        represents (refresh T data (time_time (world σ)).1 E)
          (self (_update_cache T data σ).2))
  /\ (forall (E : entries) σ (arg : option string),
        represents E (self σ) ->
        represents (invalidate arg E) (self (clear_cache arg σ).2))
  /\ (forall (E : entries) σ T,
        represents E (self σ) ->
        exists E' : entries, represents E' (self (get_sheet_data_sync T σ).2))
  /\ (forall (E : entries) (m : GoogleSheetsManager),
        represents E m ->
        dom (_cache m) = dom (_cache_timestamps m)
        /\ forall T,
             _cache m !! T = fst <$> (E !! T)
             /\ _cache_timestamps m !! T = snd <$> (E !! T)).
Proof.
  assert (Hupd : forall (E : entries) σ T (data : list Row),
            represents E (self σ) ->
            represents (refresh T data (time_time (world σ)).1 E)
              (self (_update_cache T data σ).2)).
  { intros E σ T data [Hc Hts]. rewrite update_cache_run. simpl.
    unfold represents, refresh. simpl.
    rewrite !fmap_insert, Hc, Hts. auto. }
  split; [|split; [exact Hupd|split; [|split]]].
  - intros sid svc. unfold represents, init. simpl.
    now rewrite !fmap_empty.
  - intros E σ arg [Hc Hts].
    destruct (clear_cache_run arg σ) as [msg ->]. simpl.
    unfold represents, invalidate. simpl.
    destruct arg as [name|]; [destruct (PyStr.truthy name)|];
      rewrite ?fmap_delete, ?fmap_empty, ?Hc, ?Hts; auto.
  - intros E σ T HE.
    destruct (is_cache_valid_returns T σ) as ([|] & σ1 & Hv & Hs & _).
    + destruct (get_hit T σ σ1 Hv) as [-> _]. simpl. rewrite Hs. eauto.
    + destruct (get_miss T σ σ1 Hv) as [-> _].
      destruct (refetch_run T σ1) as (data & σf & Hf & Hsf & Hr).
      unfold refetch, bind in *. rewrite Hf in *.
      specialize (Hupd E σf T data). rewrite Hsf, Hs in Hupd.
      destruct (_update_cache T data σf) as [[[]|e] σ2]; simpl in *; eauto.
  - intros E m [Hc Hts]. split.
    + now rewrite Hc, Hts, !dom_fmap_L.
    + intros T. now rewrite Hc, Hts, !lookup_fmap.
Qed.

End Cache.
End GSheetsFacts.

(** ** The scheduler *)

Module SchedulerFacts.
Import Py Py.Notations Scheduler.

Lemma sends_app (tr1 tr2 : list event) :
  sends (tr1 ++ tr2) = sends tr1 ++ sends tr2.
Proof. apply omap_app. Qed.

Section Sched.
Context {World : Type} `{!Runtime World}.

(** One round of the loop returns, whatever the send did, and has handed
    exactly one message to the platform. *)
Lemma notify_one_run (message : string) (user_id : Z)
    (σ : state Scheduler World) :
  exists σ',
    notify_one message user_id σ = (Return tt, σ')
    /\ self σ' = self σ
    /\ sends (trace σ') = sends (trace σ) ++ [(user_id, message)]
    /\ errors (trace σ') =
         errors (trace σ) ++
           match (bot_send_message user_id message (world σ)).1 with
           | Return _ => []
           | Raise e =>
               ["Error al enviar notificación urgente a "
                +:+ pretty user_id +:+ ": " +:+ exn_str e]
           end.
Proof.
  destruct σ as [s w tr].
  unfold notify_one, try_except, bind, emit, extern, log. simpl.
  destruct (bot_send_message user_id message w) as [[[]|e] w']; simpl;
    eexists; (split; [reflexivity|]); simpl;
    rewrite ?sends_app, ?GSheetsFacts.errors_app; simpl;
    rewrite ?app_nil_r; auto.
Qed.

Lemma for_each_notify (message : string) (users : list Z) :
  forall σ : state Scheduler World,
  exists σ',
    for_each users (notify_one message) σ = (Return tt, σ')
    /\ self σ' = self σ
    /\ sends (trace σ') =
         sends (trace σ) ++ map (fun u => (u, message)) users.
Proof.
  induction users as [|u rest IH]; intros σ; simpl.
  - exists σ. unfold ret. now rewrite app_nil_r.
  - destruct (notify_one_run message u σ) as (σ1 & H1 & Hs1 & Hsend1 & _).
    destruct (IH σ1) as (σ2 & H2 & Hs2 & Hsend2).
    exists σ2. unfold bind. rewrite H1, H2.
    split; [reflexivity|]. split; [congruence|].
    rewrite Hsend2, Hsend1, <- app_assoc. reflexivity.
Qed.

Lemma send_urgent_notification_run (message : string)
    (user_ids : option (list Z)) (σ : state Scheduler World) (b : Bot) :
  bot (self σ) = Some b ->
  exists σ',
    for_each (target_users (self σ) user_ids) (notify_one message) σ
    = (Return tt, σ')
    /\ send_urgent_notification message user_ids σ =
         (Return tt,
          State (self σ') (world σ')
            (trace σ' ++
               [Log INFO ("Notificación urgente enviada a "
                          +:+ pretty (length (target_users (self σ) user_ids))
                          +:+ " usuarios")])).
Proof.
  intros Hbot.
  destruct (for_each_notify message (target_users (self σ) user_ids) σ)
    as (σ' & Hloop & _ & _).
  exists σ'. split; [exact Hloop|].
  unfold send_urgent_notification, try_except.
  unfold bind at 1. unfold get_self at 1. cbv beta iota. rewrite Hbot.
  unfold bind. rewrite Hloop. reflexivity.
Qed.

(** One round of the loop, in full: the send is made in the world as it
    is, and the trace gets the events of that attempt. *)
Lemma notify_one_state (message : string) (user_id : Z)
    (σ : state Scheduler World) :
  notify_one message user_id σ =
    (Return tt,
     State (self σ) (bot_send_message user_id message (world σ)).2
       (trace σ ++
          attempt_events message
            (user_id, (bot_send_message user_id message (world σ)).1))).
Proof.
  destruct σ as [s w tr].
  unfold notify_one, try_except, bind, emit, extern, log. simpl.
  destruct (bot_send_message user_id message w) as [[[]|e] w']; simpl;
    [reflexivity|].
  unfold attempt_events, failure_record, emit. simpl.
  now rewrite <- app_assoc.
Qed.

(** The loop is the fan-out of the specification. *)
Lemma for_each_notify_state (message : string) (users : list Z) :
  forall σ : state Scheduler World,
    for_each users (notify_one message) σ =
      (Return tt,
       State (self σ) (attempts message users (world σ)).2
         (trace σ ++
            concat (map (attempt_events message)
                      (attempts message users (world σ)).1))).
Proof.
  induction users as [|u rest IH]; intros σ.
  - destruct σ as [s w tr]. simpl. unfold ret. now rewrite app_nil_r.
  - cbn [for_each]. unfold bind. rewrite notify_one_state, IH.
    cbn [attempts self world trace].
    destruct (bot_send_message u message (world σ)) as [r w1].
    cbn [fst snd].
    destruct (attempts message rest w1) as [done w2].
    cbn [fst snd map concat]. now rewrite <- app_assoc.
Qed.

Lemma attempts_targets (message : string) (users : list Z) :
  forall w : World, map fst (attempts message users w).1 = users.
Proof.
  induction users as [|u rest IH]; intros w; [reflexivity|].
  cbn [attempts]. specialize (IH (bot_send_message u message w).2).
  destruct (bot_send_message u message w) as [r w1].
  cbn [fst snd] in IH.
  destruct (attempts message rest w1) as [done w2].
  cbn [fst snd map] in *. now f_equal.
Qed.

Lemma attempt_events_sends (message : string)
    (done : list (Z * outcome unit)) :
  sends (concat (map (attempt_events message) done))
  = map (fun u => (u, message)) (map fst done).
Proof.
  induction done as [|[u r] done IH]; [reflexivity|].
  cbn [map concat fst]. rewrite sends_app, IH.
  unfold attempt_events, failure_record. now destruct r.
Qed.

Lemma attempt_events_errors (message : string)
    (done : list (Z * outcome unit)) :
  errors (concat (map (attempt_events message) done))
  = omap failure_record done.
Proof.
  induction done as [|[u r] done IH]; [reflexivity|].
  cbn [map concat]. rewrite GSheetsFacts.errors_app, IH.
  cbn [omap list_omap].
  unfold attempt_events, failure_record. now destruct r.
Qed.

(** C7.  With a bot, [send_urgent_notification] is the fan-out of the
    specification: it returns normally, and in order it has made one send
    to every target user, each in the world the send before left, whatever
    that send did; the record of every send that raised is in the log, and
    the log has no other error.  So the messages handed to the platform
    are one for every target in the order of the list, and the errors
    logged are those of the failed sends and only those.  The targets are
    [user_ids] when that list is given and not empty. *)
Theorem broadcast_reaches_every_recipient (message : string)
    (user_ids : option (list Z)) (σ : state Scheduler World) (b : Bot) :
  bot (self σ) = Some b ->
  let targets := target_users (self σ) user_ids in
  let done := attempts message targets (world σ) in
  send_urgent_notification message user_ids σ =
    (Return tt,
     State (self σ) done.2
       (trace σ ++ concat (map (attempt_events message) done.1)
          ++ [Log INFO ("Notificación urgente enviada a "
                        +:+ pretty (length targets) +:+ " usuarios")]))
  /\ map fst done.1 = targets
  /\ (send_urgent_notification message user_ids σ).1 = Return tt
  /\ sends (trace (send_urgent_notification message user_ids σ).2) =
       sends (trace σ) ++ map (fun u => (u, message)) targets
  /\ errors (trace (send_urgent_notification message user_ids σ).2) =
       errors (trace σ) ++ omap failure_record done.1
  /\ (forall u us, user_ids = Some (u :: us) -> targets = u :: us).
Proof.
  intros Hbot targets done.
  destruct (send_urgent_notification_run message user_ids σ b Hbot)
    as (σ' & Hloop & Hrun).
  fold targets in Hloop, Hrun.
  rewrite for_each_notify_state in Hloop. fold done in Hloop.
  injection Hloop as <-. cbn [self world trace] in Hrun.
  rewrite <- app_assoc in Hrun.
  pose proof (attempts_targets message targets (world σ)) as Htargets.
  fold done in Htargets.
  split; [exact Hrun|]. split; [exact Htargets|].
  rewrite Hrun. cbn [fst snd trace].
  split; [reflexivity|].
  rewrite !sends_app, !GSheetsFacts.errors_app.
  rewrite attempt_events_sends, attempt_events_errors, Htargets.
  cbn [sends errors omap list_omap]. rewrite !app_nil_r.
  split; [reflexivity|]. split; [reflexivity|].
  intros u us Hu. subst targets. now rewrite Hu.
Qed.

(** A send that raises leaves one error in the log; one that returns
    leaves none. *)
Lemma notify_one_logs_failure (message : string) (user_id : Z)
    (σ : state Scheduler World) (e : exn) :
  (bot_send_message user_id message (world σ)).1 = Raise e ->
  exists msg,
    errors (trace (notify_one message user_id σ).2)
    = errors (trace σ) ++ [msg].
Proof.
  intros He.
  destruct (notify_one_run message user_id σ) as (σ' & -> & _ & _ & Herr).
  rewrite He in Herr. simpl. eauto.
Qed.

(** Without a bot nothing is sent. *)
Lemma no_bot_no_send (message : string) (user_ids : option (list Z))
    (σ : state Scheduler World) :
  bot (self σ) = None ->
  send_urgent_notification message user_ids σ = (Return tt, σ).
Proof.
  intros Hbot. unfold send_urgent_notification, try_except, bind, get_self.
  now rewrite Hbot.
Qed.

(** *** [_parse_admin_ids] *)

Lemma map_m_cons {Self A B} (f : A -> Py.M Self World B) (x : A)
    (rest : list A) (σ : state Self World) :
  map_m f (x :: rest) σ =
    match f x σ with
    | (Return y, σ1) =>
        match map_m f rest σ1 with
        | (Return ys, σ2) => (Return (y :: ys), σ2)
        | (Raise e, σ2) => (Raise e, σ2)
        end
    | (Raise e, σ1) => (Raise e, σ1)
    end.
Proof. reflexivity. Qed.

Lemma int_run {Self} (s : string) (σ : state Self World) :
  int_ s σ =
    match int s with
    | Some n => (Return n, σ)
    | None =>
        (Raise (ValueError ("invalid literal for int() with base 10: " +:+ s)),
         σ)
    end.
Proof. unfold int_. now destruct (int s). Qed.

(** The comprehension yields the whole list when every entry converts,
    and raises [ValueError] at the first entry that does not. *)
Lemma comprehension_run {Self} (uids : list string) (σ : state Self World) :
  match mapM (fun uid => int (PyStr.strip uid)) uids with
  | Some ids =>
      map_m (fun uid => int_ (PyStr.strip uid)) uids σ = (Return ids, σ)
  | None =>
      exists msg,
        map_m (fun uid => int_ (PyStr.strip uid)) uids σ
        = (Raise (ValueError msg), σ)
  end.
Proof.
  induction uids as [|uid rest IH]; [reflexivity|].
  rewrite map_m_cons, int_run. cbn [mapM].
  destruct (int (PyStr.strip uid)) as [n|]; cbn -[map_m]; [|eauto].
  destruct (mapM (fun uid => int (PyStr.strip uid)) rest) as [ids|];
    cbn -[map_m].
  - now rewrite IH.
  - destruct IH as [msg ->]. eauto.
Qed.

(** When every entry converts, the list of the valid entries is the list
    of all of them. *)
Lemma all_valid_nothing_skipped (uids : list string) (ids : list Z) :
  mapM (fun uid => int (PyStr.strip uid)) uids = Some ids ->
  omap (fun uid => int (PyStr.strip uid)) uids = ids.
Proof.
  revert ids. induction uids as [|uid rest IH]; intros ids Hm.
  - now injection Hm as <-.
  - simpl in Hm |- *.
    destruct (int (PyStr.strip uid)) as [n|]; simpl in *; [|discriminate].
    destruct (mapM (fun uid => int (PyStr.strip uid)) rest) as [ids'|];
      simpl in *; [|discriminate].
    injection Hm as <-. f_equal. now apply IH.
Qed.

(** C3, as the code has it.  [_parse_admin_ids] is all or nothing: when
    every entry that is not blank converts with [int], it returns their
    numbers in order (which then is the list with the invalid entries
    skipped, there being none) and logs nothing; when one of them does not
    convert, it returns the empty list and logs one error, and the valid
    entries are lost with it. *)
Theorem parse_admin_ids_all_or_nothing {Self} (σ : state Self World) :
  let admin_ids_str := default "" (getenv "ADMIN_USER_IDS" (world σ)) in
  match mapM (fun uid => int (PyStr.strip uid))
          (admin_entries admin_ids_str) with
  | Some ids =>
      _parse_admin_ids σ = (Return ids, σ)
      /\ ids = recipient_ids_skipping_invalid admin_ids_str
  | None =>
      _parse_admin_ids σ =
        (Return [],
         State (self σ) (world σ)
           (trace σ ++ [Log ERROR "Error al parsear ADMIN_USER_IDS"]))
  end.
Proof.
  intros admin_ids_str.
  pose proof (comprehension_run (admin_entries admin_ids_str) σ) as Hrun.
  unfold _parse_admin_ids, bind, ask. cbv beta iota.
  fold admin_ids_str. fold (admin_entries admin_ids_str).
  unfold recipient_ids_skipping_invalid.
  clearbody admin_ids_str.
  destruct (PyStr.truthy admin_ids_str) eqn:Ht; cbn [negb].
  - unfold try_except.
    destruct (mapM _ (admin_entries admin_ids_str)) as [ids|] eqn:Hm.
    + rewrite Hrun. split; [reflexivity|].
      symmetry. now apply all_valid_nothing_skipped.
    + destruct Hrun as [msg ->]. reflexivity.
  - destruct admin_ids_str; [|discriminate]. split; reflexivity.
Qed.

End Sched.
End SchedulerFacts.

(** ** The urgent payments *)

Module PaymentsFacts.
Import Py Py.Notations GSheets Payments.

(** Whole days from a time of day [u] on day [d] to midnight of the day
    [k] days later: [k] at midnight, one less after it. *)
Lemma days_between_midnight (d k u : Z) :
  0 <= u < usec_per_day ->
  days_between (DateTime (d + k) 0) (DateTime d u)
  = if u =? 0 then k else k - 1.
Proof.
  intros Hu. unfold days_between. simpl.
  replace ((d + k - d) * usec_per_day + (0 - u))
    with (k * usec_per_day - u) by lia.
  destruct (Z.eqb_spec u 0) as [-> | Hne].
  - rewrite Z.sub_0_r. apply Z.div_mul. unfold usec_per_day. lia.
  - symmetry. apply (Z.div_unique_pos _ _ _ (usec_per_day - u)); lia.
Qed.

Section Urgent.
Context {World : Type} `{!Runtime World}.

(** The loop appends to the result the entries of the rows, in the order
    of the rows. *)
Lemma urgent_loop (current_date : datetime) (payments_data : list Row) :
  forall acc : list UrgentPayment,
    fold_left (urgent_step current_date) payments_data acc
    = acc ++ omap (urgent_entry current_date) payments_data.
Proof.
  induction payments_data as [|payment rest IH]; intros acc.
  - simpl. now rewrite app_nil_r.
  - cbn [fold_left]. rewrite IH. cbn [omap list_omap].
    unfold urgent_step, urgent_entry.
    destruct (strptime _ _) as [payment_date|]; [|reflexivity].
    destruct (_ && _); [|reflexivity].
    now rewrite <- app_assoc.
Qed.

(** [get_urgent_payments] on the rows the manager hands it. *)
Lemma get_urgent_payments_run (σ σ1 : state GoogleSheetsManager World)
    (payments_data : list Row) :
  get_sheet_data_sync "pagos" σ = (Return payments_data, σ1) ->
  (get_urgent_payments σ).1
  = Return (omap (urgent_entry (datetime_now (world σ1)).1) payments_data).
Proof.
  intros Hget. unfold get_urgent_payments, try_except.
  unfold bind at 1. rewrite Hget.
  destruct payments_data as [|payment rest]; [reflexivity|].
  unfold bind, extern, ret.
  destruct (datetime_now (world σ1)) as [now w']. simpl.
  f_equal. exact (urgent_loop now (payment :: rest) []).
Qed.

(** A row is in the result exactly when its date parses and lies zero to
    seven whole days ahead. *)
Lemma urgent_entry_spec (current_date : datetime) (payment : Row)
    (u : UrgentPayment) :
  urgent_entry current_date payment = Some u <->
  exists payment_date,
    strptime (dict_get payment "fecha" "") "%Y-%m-%d" = Some payment_date
    /\ 0 <= days_between payment_date current_date <= 7
    /\ u = Urgent payment_date (dict_get payment "concepto" "")
             (dict_get payment "monto" "")
             (days_between payment_date current_date).
Proof.
  unfold urgent_entry.
  destruct (strptime _ _) as [payment_date|].
  - destruct (Z.leb_spec 0 (days_between payment_date current_date));
      destruct (Z.leb_spec (days_between payment_date current_date) 7);
      simpl; split.
    all: try (intros [= <-]; exists payment_date; repeat split; auto; lia).
    all: try (intros (pd & [= <-] & Hr & ->); auto; lia).
    all: try discriminate.
  - split; [discriminate|]. intros (pd & Hpd & _). discriminate.
Qed.

(** What [get_urgent_payments] computes from the rows the manager hands
    it: the entries of the rows whose date parses and whose [days_until]
    (the whole days from now, the instant of the call, to midnight of the
    date, rounded down) is between 0 and 7, in the order of the rows.  A
    date that does not parse is skipped without an error.  For rows dated
    today, today+3, today+10, an invalid date and today-1, in that order,
    this is today+3, and today before it only when the call is made at
    midnight exactly. *)
Lemma urgent_payments_in_row_order (σ σ1 : state GoogleSheetsManager World)
    (payments_data : list Row) :
  get_sheet_data_sync "pagos" σ = (Return payments_data, σ1) ->
  let now := (datetime_now (world σ1)).1 in
  exists urgent,
    (get_urgent_payments σ).1 = Return urgent
    /\ urgent = omap (urgent_entry now) payments_data
    /\ (forall u,
          u ∈ urgent <->
          exists payment payment_date,
            payment ∈ payments_data
            /\ strptime (dict_get payment "fecha" "") "%Y-%m-%d"
               = Some payment_date
            /\ 0 <= days_between payment_date now <= 7
            /\ u = Urgent payment_date (dict_get payment "concepto" "")
                     (dict_get payment "monto" "")
                     (days_between payment_date now))
    /\ (forall r0 r3 r10 rbad rm1 : Row,
          payments_data = [r0; r3; r10; rbad; rm1] ->
          0 <= usec now < usec_per_day ->
          strptime (dict_get r0 "fecha" "") "%Y-%m-%d"
            = Some (DateTime (day now + 0) 0) ->
          strptime (dict_get r3 "fecha" "") "%Y-%m-%d"
            = Some (DateTime (day now + 3) 0) ->
          strptime (dict_get r10 "fecha" "") "%Y-%m-%d"
            = Some (DateTime (day now + 10) 0) ->
          strptime (dict_get rbad "fecha" "") "%Y-%m-%d" = None ->
          strptime (dict_get rm1 "fecha" "") "%Y-%m-%d"
            = Some (DateTime (day now + -1) 0) ->
          map fecha urgent =
            (if usec now =? 0 then [DateTime (day now + 0) 0] else [])
            ++ [DateTime (day now + 3) 0]).
Proof.
  intros Hget now.
  exists (omap (urgent_entry now) payments_data).
  split; [now apply get_urgent_payments_run|]. split; [reflexivity|]. split.
  - intros u. rewrite list_elem_of_omap. split.
    + intros (payment & Hin & Hu).
      apply urgent_entry_spec in Hu as (pd & Hpd & Hr & ->).
      exists payment, pd. auto.
    + intros (payment & pd & Hin & Hpd & Hr & ->).
      exists payment. split; [exact Hin|].
      apply urgent_entry_spec. exists pd. auto.
  - intros r0 r3 r10 rbad rm1 -> Hu H0 H3 H10 Hbad Hm1.
    destruct now as [d u]. simpl in *.
    cbn [omap list_omap]. unfold urgent_entry.
    rewrite H0, H3, H10, Hbad, Hm1.
    rewrite !days_between_midnight by exact Hu.
    destruct (Z.eqb_spec u 0); reflexivity.
Qed.

(** On rows in the order of their dates the result is in that order too:
    the entries are a sublist of the rows that parse. *)
Lemma urgent_entry_keeps_date (current_date : datetime) (payment : Row)
    (u : UrgentPayment) :
  urgent_entry current_date payment = Some u ->
  strptime (dict_get payment "fecha" "") "%Y-%m-%d" = Some (fecha u).
Proof.
  intros Hu. apply urgent_entry_spec in Hu as (pd & Hpd & _ & ->).
  exact Hpd.
Qed.

End Urgent.
End PaymentsFacts.

(** ** Runs on concrete inputs *)

Module Runs.
Import Py GSheets Payments Scheduler Concrete Inputs.
Import GSheetsFacts SchedulerFacts PaymentsFacts.

(** *** The cache *)

Lemma get_fresh_changes_nothing_witness :
  let σ := State manager_cached (world_with five_past_nine []) [] in
  _cache_timestamps (self σ) !! "pagos" = Some 1000
  /\ (time_time (world σ)).1 - 1000 < _cache_duration (self σ)
  /\ get_sheet_data_sync "pagos" σ = (Return pagos_rows, σ)
  /\ get_sheet_data "pagos" σ = (Return pagos_rows, σ).
Proof.
  intros σ.
  assert (Hts : _cache_timestamps (self σ) !! "pagos" = Some 1000)
    by reflexivity.
  assert (Hfresh : (time_time (world σ)).1 - 1000 < _cache_duration (self σ))
    by (vm_compute; reflexivity).
  split; [exact Hts|]. split; [exact Hfresh|].
  exact (get_fresh_changes_nothing "pagos" σ 1000 Hts Hfresh).
Defined.


(** After a failed fetch the empty list is what the cache holds, with a
    time stamp of its own. *)
Lemma failed_fetch_gives_empty_witness :
  let σ := State manager_new world_down [] in
  _is_cache_valid "pagos" σ = (Return false, σ)
  /\ fetch_fails "pagos" σ
  /\ exists msg σ',
       get_sheet_data_sync "pagos" σ = (Return [], σ')
       /\ errors (trace σ') = errors (trace σ) ++ [msg].
Proof.
  intros σ.
  assert (Hv : _is_cache_valid "pagos" σ = (Return false, σ))
    by reflexivity.
  assert (Hfail : fetch_fails "pagos" σ).
  { exists (HttpError "503 Service Unavailable"). reflexivity. }
  split; [exact Hv|]. split; [exact Hfail|].
  exact (proj2 (failed_fetch_gives_empty "pagos" σ) σ Hv Hfail).
Defined.

Lemma failed_fetch_is_cached :
  let σ' := (get_sheet_data_sync "pagos" (State manager_new world_down [])).2 in
  _cache (self σ') !! "pagos" = Some []
  /\ _cache_timestamps (self σ') !! "pagos" = Some 1100
  /\ errors (trace σ')
     = ["Error HTTP al obtener datos de pagos: 503 Service Unavailable"].
Proof. vm_compute. auto. Qed.

Lemma cache_entries_stay_paired_witness :
  let σ := State manager_new (world_with five_past_nine []) [] in
  represents ∅ (self σ)
  /\ represents (refresh "pagos" pagos_rows 1100 ∅)
       (self (_update_cache "pagos" pagos_rows σ).2)
  /\ represents (invalidate (Some "pagos") ∅)
       (self (clear_cache (Some "pagos") σ).2).
Proof.
  intros σ.
  destruct (@cache_entries_stay_paired fixed_world runtime)
    as (Hinit & Hupd & Hclear & _).
  assert (H0 : represents ∅ (self σ))
    by exact (Hinit (Some "sheet-1") (Some SheetsService)).
  split; [exact H0|]. split.
  - exact (Hupd ∅ σ "pagos" pagos_rows H0).
  - exact (Hclear ∅ σ (Some "pagos") H0).
Defined.

(** A fresh entry is dropped all the same: after [clear_cache] the next
    [get] asks the service. *)
Lemma clear_then_get_refetches_run :
  let σ := State manager_cached (world_with five_past_nine pagos_sheet) [] in
  requests (trace (get_sheet_data_sync "pagos" σ).2) = []
  /\ requests (trace (get_sheet_data_sync "pagos"
                        (clear_cache (Some "pagos") σ).2).2)
     = [("sheet-1", "pagos!A:Z")]
  /\ requests (trace (get_sheet_data_sync "pagos" (clear_cache None σ).2).2)
     = [("sheet-1", "pagos!A:Z")].
Proof. vm_compute. auto. Qed.

(** *** The scheduler *)

Lemma broadcast_reaches_every_recipient_witness :
  let σ := State scheduler_with_bot (world_with five_past_nine []) [] in
  bot (self σ) = Some (TelegramBot "token")
  /\ (send_urgent_notification "hola" (Some [1; 2; 3]) σ).1 = Return tt
  /\ sends (trace (send_urgent_notification "hola" (Some [1; 2; 3]) σ).2)
     = [(1, "hola"); (2, "hola"); (3, "hola")]
  /\ errors (trace (send_urgent_notification "hola" (Some [1; 2; 3]) σ).2)
     = ["Error al enviar notificación urgente a 2: Forbidden"].
Proof.
  intros σ. split; [reflexivity|].
  destruct (broadcast_reaches_every_recipient "hola" (Some [1; 2; 3]) σ
              (TelegramBot "token") eq_refl)
    as (_ & _ & Hret & Hsends & Herrors & _).
  split; [exact Hret|]. split; [exact Hsends | exact Herrors].
Defined.

(** Recipients 1, 2 and 3, the send to 2 refused: three sends, and the one
    error in the log is the one for 2. *)
Lemma broadcast_logs_only_the_failure :
  let σ := State scheduler_with_bot (world_with five_past_nine []) [] in
  trace (send_urgent_notification "hola" (Some [1; 2; 3]) σ).2
  = [SendMessage 1 "hola";
     SendMessage 2 "hola";
     Log ERROR "Error al enviar notificación urgente a 2: Forbidden";
     SendMessage 3 "hola";
     Log INFO "Notificación urgente enviada a 3 usuarios"].
Proof. vm_compute. reflexivity. Qed.

(** Without a list, and with the empty list, the administrators are the
    targets. *)
Lemma broadcast_defaults_to_admins :
  let σ := State scheduler_with_bot (world_with five_past_nine []) [] in
  sends (trace (send_urgent_notification "hola" None σ).2) = [(7, "hola")]
  /\ sends (trace (send_urgent_notification "hola" (Some []) σ).2)
     = [(7, "hola")].
Proof. vm_compute. auto. Qed.

(** C3, the claim as worded fails.  With [ADMIN_USER_IDS] set to
    ["1,abc,2"] the valid entries are 1 and 2, and [_parse_admin_ids]
    returns the empty list, not [[1; 2]]. *)
Lemma parse_admin_ids_loses_valid_entries :
  let σ := State tt (world_with five_past_nine []) [] in
  getenv "ADMIN_USER_IDS" (world σ) = Some "1,abc,2"
  /\ recipient_ids_skipping_invalid "1,abc,2" = [1; 2]
  /\ (_parse_admin_ids σ).1 = Return []
  /\ (_parse_admin_ids σ).1
     <> Return (recipient_ids_skipping_invalid "1,abc,2").
Proof.
  intros σ. repeat split; try (vm_compute; reflexivity).
  vm_compute. discriminate.
Qed.

Lemma parse_admin_ids_all_valid :
  let w := FixedWorld 0 five_past_nine {["ADMIN_USER_IDS" := " 12, 7 ,,-3"]}
             (fun _ => Return None) (fun _ => Return tt) in
  (_parse_admin_ids (State tt w [])).1 = Return [12; 7; -3].
Proof. vm_compute. reflexivity. Qed.

(** *** The urgent payments *)

(** C1.  The code departs from the claim at 09:05 on 2024-03-10.  Of the
    rows dated today, today+3, today+10, invalid and today-1 only today+3
    comes back: today's row is dropped, the claim has it in the result.
    Rows dated 03-13 and 03-11 in that order come back in that order,
    which is not ascending by date.  And of the rows dated today,
    tomorrow, today+7, today+8 and today+9 the result has tomorrow with 0
    days left, today+7 with 6 and today+8 with 7: the window is a day
    late, the time of day of the call being taken off midnight of the
    date before the days are counted. *)
Theorem urgent_payments_unsorted_and_today_dropped :
  (exists urgent,
     (get_urgent_payments
        (State manager_new (world_with five_past_nine unsorted_sheet) [])).1
     = Return urgent
     /\ map (fun u => day (fecha u)) urgent = [today + 3; today + 1]
     /\ ascending (map (fun u => instant (fecha u)) urgent) = false)
  /\ (exists urgent,
        (get_urgent_payments
           (State manager_new (world_with five_past_nine pagos_sheet) [])).1
        = Return urgent
        /\ map (fun u => day (fecha u)) urgent = [today + 3]
        /\ map (fun u => day (fecha u)) urgent <> [today; today + 3])
  /\ (get_urgent_payments
        (State manager_new (world_with five_past_nine horizon_sheet) [])).1
     = Return [Urgent (DateTime (today + 1) 0) "Manana" "2" 0;
               Urgent (DateTime (today + 7) 0) "Siete" "3" 6;
               Urgent (DateTime (today + 8) 0) "Ocho" "4" 7].
Proof.
  split; [|split]; [| |vm_compute; reflexivity];
    eexists; (split; [vm_compute; reflexivity|]);
    split; vm_compute; (reflexivity || discriminate).
Qed.

(** The general statement at the rows of [pagos_sheet]. *)
Lemma urgent_payments_in_row_order_witness :
  let σ := State manager_new (world_with five_past_nine pagos_sheet) [] in
  get_sheet_data_sync "pagos" σ
  = (Return pagos_rows, (get_sheet_data_sync "pagos" σ).2)
  /\ exists urgent,
       (get_urgent_payments σ).1 = Return urgent
       /\ urgent = omap (urgent_entry five_past_nine) pagos_rows
       /\ map fecha urgent = [DateTime (today + 3) 0].
Proof.
  intros σ.
  assert (Hget : get_sheet_data_sync "pagos" σ
                 = (Return pagos_rows, (get_sheet_data_sync "pagos" σ).2))
    by (vm_compute; reflexivity).
  split; [exact Hget|].
  destruct (urgent_payments_in_row_order σ _ pagos_rows Hget)
    as (urgent & Hret & Hurgent & _ & Hexample).
  exists urgent. split; [exact Hret|]. split; [exact Hurgent|].
  refine (Hexample _ _ _ _ _ eq_refl _ eq_refl eq_refl eq_refl eq_refl eq_refl).
  vm_compute. split; [discriminate | reflexivity].
Defined.

(** At midnight exactly today's row is kept as well. *)
Lemma urgent_payments_at_midnight :
  (get_urgent_payments
     (State manager_new (world_with (DateTime today 0) pagos_sheet) [])).1
  = Return [Urgent (DateTime today 0) "Matricula" "100" 0;
            Urgent (DateTime (today + 3) 0) "Mensualidad" "50" 3].
Proof. vm_compute. reflexivity. Qed.

End Runs.

(** ** The other helpers *)

Module HelpersRestFacts.
Import PyStr Py HelpersRest.

Lemma length_take (n : nat) (s : string) :
  String.length (take n s) = Nat.min n (String.length s).
Proof.
  revert s; induction n as [|n IH]; intros [|c s]; simpl; auto.
Qed.

Lemma len_append (a b : string) : len (a +:+ b) = len a + len b.
Proof.
  unfold len. induction a as [|c a IH].
  - change ("" +:+ b) with b. simpl. lia.
  - change (String c a +:+ b) with (String c (a +:+ b)). simpl.
    rewrite !Nat2Z.inj_succ. lia.
Qed.

Lemma truthy_len (s : string) : truthy s = true <-> 0 < len s.
Proof.
  unfold len. destruct s as [|c s]; cbn [truthy String.length]; split.
  - discriminate.
  - lia.
  - lia.
  - reflexivity.
Qed.

(** X1.  A text longer than [max_length] is cut to exactly [max_length]
    characters when the suffix fits in them: the first
    [max_length - len(suffix)] characters of the text, then the suffix. *)
Theorem truncate_text_fits (text : string) (max_length : Z)
    (suffix : string) :
  len text > max_length ->
  len suffix <= max_length ->
  truncate_text text max_length suffix
  = take (Z.to_nat (max_length - len suffix)) text +:+ suffix
  /\ len (truncate_text text max_length suffix) = max_length.
Proof.
  intros Hlong Hfit.
  assert (Hs : 0 <= len suffix) by (unfold len; lia).
  assert (Ht : truthy text = true) by (apply truthy_len; lia).
  unfold truncate_text. rewrite Ht. simpl.
  destruct (Z.leb_spec (len text) max_length); [lia|].
  assert (Hclamp : clamp (max_length - len suffix) (String.length text)
                   = Z.to_nat (max_length - len suffix)).
  { unfold clamp. destruct (Z.ltb_spec (max_length - len suffix) 0); [lia|].
    unfold len in *. lia. }
  unfold slice_to. rewrite Hclamp. split; [reflexivity|].
  rewrite len_append. unfold len at 1. rewrite length_take.
  unfold len in *. lia.
Qed.

Lemma truncate_text_fits_witness :
  len "abcdefghij" > 8 /\ len "..." <= 8
  /\ truncate_text "abcdefghij" 8 "..." = "abcde..."
  /\ len (truncate_text "abcdefghij" 8 "...") = 8.
Proof.
  split; [reflexivity|]. split; [vm_compute; discriminate|].
  apply (truncate_text_fits "abcdefghij" 8 "...");
    [reflexivity | vm_compute; discriminate].
Defined.

(** X2.  When the suffix is longer than [max_length], the slice bound is
    negative and counts from the end of the text: the result keeps the
    text but its last characters, ends in the whole suffix, and is longer
    than [max_length]. *)
Theorem truncate_text_overshoots (text : string) (max_length : Z)
    (suffix : string) :
  truthy text = true ->
  len text > max_length ->
  max_length < len suffix ->
  truncate_text text max_length suffix
  = take (Z.to_nat (len text + max_length - len suffix)) text +:+ suffix
  /\ len (truncate_text text max_length suffix) > max_length.
Proof.
  intros Ht Hlong Hbig.
  unfold truncate_text. rewrite Ht. simpl.
  destruct (Z.leb_spec (len text) max_length); [lia|].
  assert (Hclamp : clamp (max_length - len suffix) (String.length text)
                   = Z.to_nat (len text + max_length - len suffix)).
  { unfold clamp. destruct (Z.ltb_spec (max_length - len suffix) 0); [|lia].
    unfold len. lia. }
  unfold slice_to. rewrite Hclamp. split; [reflexivity|].
  rewrite len_append. unfold len at 1. unfold len in *. lia.
Qed.

Lemma truncate_text_overshoots_witness :
  truncate_text "abcdef" 2 "..." = "abcde..."
  /\ len (truncate_text "abcdef" 2 "...") > 2.
Proof.
  apply (truncate_text_overshoots "abcdef" 2 "...");
    [reflexivity | reflexivity | reflexivity].
Defined.

(** *** [create_inline_keyboard] *)

Section Keyboard.
Context {A : Type}.
Implicit Types (buttons row : list A) (keyboard : list (list A)).

(** A full row has [max_buttons_per_row] buttons, and one button when
    that number is not positive. *)
Local Abbreviation full m :=
  (fun row : list A => Z.of_nat (length row) = Z.max 1 m).

Lemma keyboard_loop (m : Z) buttons :
  forall keyboard row,
    Forall (full m) keyboard ->
    Z.of_nat (length row) < Z.max 1 m ->
    exists keyboard' row',
      fold_left (keyboard_step m) buttons (keyboard, row) = (keyboard', row')
      /\ concat keyboard' ++ row' = concat keyboard ++ row ++ buttons
      /\ Forall (full m) keyboard'
      /\ Z.of_nat (length row') < Z.max 1 m.
Proof.
  induction buttons as [|b rest IH]; intros keyboard row Hfull Hrow.
  - exists keyboard, row. simpl. rewrite app_nil_r. auto.
  - cbn [fold_left]. unfold keyboard_step at 2.
    assert (Hlen : Z.of_nat (length (row ++ [b])) = Z.of_nat (length row) + 1)
      by (rewrite length_app; simpl; lia).
    destruct (Z.geb_spec (Z.of_nat (length (row ++ [b]))) m) as [Hge|Hlt].
    + destruct (IH (keyboard ++ [row ++ [b]]) []) as (k' & r' & Hf & Hc & Hk & Hr).
      * apply Forall_app. split; [exact Hfull|].
        constructor; [|constructor]. lia.
      * simpl. lia.
      * exists k', r'. split; [exact Hf|]. split; [|auto].
        rewrite Hc, concat_app. simpl. rewrite app_nil_r, <- !app_assoc.
        reflexivity.
    + destruct (IH keyboard (row ++ [b])) as (k' & r' & Hf & Hc & Hk & Hr);
        [exact Hfull | lia |].
      exists k', r'. split; [exact Hf|]. split; [|auto].
      rewrite Hc, <- !app_assoc. reflexivity.
Qed.

(** X3.  The rows of the keyboard, one after the other, are the buttons
    in their order, none lost and none added; and no row is empty. *)
Theorem keyboard_keeps_buttons buttons (m : Z) :
  concat (create_inline_keyboard buttons m) = buttons
  /\ Forall (fun row => row <> []) (create_inline_keyboard buttons m).
Proof.
  unfold create_inline_keyboard.
  destruct (keyboard_loop m buttons [] []) as (k & r & -> & Hc & Hk & Hr);
    [constructor | simpl; lia |].
  simpl in Hc.
  assert (Hne : Forall (fun row => row <> []) k).
  { eapply Forall_impl; [exact Hk|]. intros row Hrow ->.
    simpl in Hrow. lia. }
  destruct r as [|x r].
  - rewrite app_nil_r in Hc. auto.
  - split.
    + rewrite concat_app. simpl. rewrite app_nil_r. exact Hc.
    + apply Forall_app. split; [exact Hne|].
      constructor; [discriminate | constructor].
Qed.

(** X4.  Every row but the last has exactly [max_buttons_per_row]
    buttons (one button when that number is not positive); the last row
    has at least one and at most that many. *)
Theorem keyboard_rows_full buttons (m : Z) :
  exists rows last,
    create_inline_keyboard buttons m = rows ++ last
    /\ Forall (fun row => Z.of_nat (length row) = Z.max 1 m) rows
    /\ (last = []
        \/ exists row, last = [row]
             /\ 1 <= Z.of_nat (length row) < Z.max 1 m).
Proof.
  unfold create_inline_keyboard.
  destruct (keyboard_loop m buttons [] []) as (k & r & -> & Hc & Hk & Hr);
    [constructor | simpl; lia |].
  destruct r as [|x r].
  - exists k, []. rewrite app_nil_r. auto.
  - exists k, [x :: r]. split; [reflexivity|]. split; [exact Hk|].
    right. exists (x :: r). split; [reflexivity|]. simpl in *. lia.
Qed.

End Keyboard.

(** *** [sanitize_filename] *)

Lemma all_chars_remove (class : ascii -> bool) (s : string) :
  all_chars (fun c => negb (class c)) (remove_chars class s) = true.
Proof.
  induction s as [|c s IH]; simpl; [reflexivity|].
  destruct (class c) eqn:Hc; simpl; [exact IH|]. now rewrite Hc.
Qed.

Lemma remove_chars_clean (class : ascii -> bool) (s : string) :
  all_chars (fun c => negb (class c)) s = true -> remove_chars class s = s.
Proof.
  induction s as [|c s IH]; simpl; [reflexivity|].
  intros [Hc Hs]%andb_prop. destruct (class c); [discriminate|].
  now rewrite IH.
Qed.

Lemma all_chars_take (p : ascii -> bool) (n : nat) (s : string) :
  all_chars p s = true -> all_chars p (take n s) = true.
Proof.
  revert s. induction n as [|n IH]; intros [|c s]; simpl; auto.
  intros [Hc Hs]%andb_prop. now rewrite Hc, IH.
Qed.

Lemma all_chars_lstrip (p : ascii -> bool) (s : string) :
  all_chars p s = true -> all_chars p (lstrip s) = true.
Proof.
  induction s as [|c s IH]; simpl; [reflexivity|].
  intros H. destruct (isspace c); [|exact H].
  apply andb_prop in H as [_ Hs]. auto.
Qed.

Lemma all_chars_rstrip (p : ascii -> bool) (s : string) :
  all_chars p s = true -> all_chars p (rstrip s) = true.
Proof.
  induction s as [|c s IH]; simpl; [reflexivity|].
  intros [Hc Hs]%andb_prop. specialize (IH Hs).
  destruct (rstrip s) as [|d r].
  - destruct (isspace c); simpl; [reflexivity | now rewrite Hc].
  - simpl in *. now rewrite Hc, IH.
Qed.

Lemma length_lstrip (s : string) :
  (String.length (lstrip s) <= String.length s)%nat.
Proof.
  induction s as [|c s IH]; simpl; [lia|].
  destruct (isspace c); simpl; lia.
Qed.

Lemma length_rstrip (s : string) :
  (String.length (rstrip s) <= String.length s)%nat.
Proof.
  induction s as [|c s IH]; simpl; [lia|].
  destruct (rstrip s) as [|d r]; [destruct (isspace c)|]; simpl in *; lia.
Qed.

Lemma length_strip (s : string) :
  (String.length (strip s) <= String.length s)%nat.
Proof.
  unfold strip. pose proof (length_rstrip (lstrip s)).
  pose proof (length_lstrip s). lia.
Qed.

Lemma rstrip_cons (c : ascii) (s : string) :
  rstrip (String c s) =
    match rstrip s with
    | EmptyString => if isspace c then EmptyString else String c EmptyString
    | r => String c r
    end.
Proof. reflexivity. Qed.

Lemma rstrip_idempotent (s : string) : rstrip (rstrip s) = rstrip s.
Proof.
  induction s as [|c s IH]; [reflexivity|].
  rewrite rstrip_cons.
  destruct (rstrip s) as [|d r] eqn:Hr.
  - destruct (isspace c) eqn:Hc; [reflexivity|].
    rewrite rstrip_cons. simpl. now rewrite Hc.
  - rewrite rstrip_cons, IH. reflexivity.
Qed.

(** What [lstrip] leaves does not start with a blank. *)
Lemma lstrip_head (s : string) :
  lstrip s = EmptyString
  \/ exists c r, lstrip s = String c r /\ isspace c = false.
Proof.
  induction s as [|c s IH]; simpl; [auto|].
  destruct (isspace c) eqn:Hc; [exact IH|]. right. eauto.
Qed.

Lemma rstrip_keeps_head (c : ascii) (r : string) :
  isspace c = false -> exists r', rstrip (String c r) = String c r'.
Proof.
  intros Hc. simpl. destruct (rstrip r); [rewrite Hc|]; eauto.
Qed.

Lemma strip_idempotent (s : string) : strip (strip s) = strip s.
Proof.
  unfold strip.
  destruct (lstrip_head s) as [-> | (c & r & -> & Hc)]; [reflexivity|].
  destruct (rstrip_keeps_head c r Hc) as [r' Hr'].
  assert (Hl : lstrip (rstrip (String c r)) = rstrip (String c r)).
  { rewrite Hr'. simpl. now rewrite Hc. }
  rewrite Hl. apply rstrip_idempotent.
Qed.

Lemma sanitize_filename_shape (filename : string) :
  all_chars (fun c => negb (forbidden_in_filename c))
    (sanitize_filename filename) = true
  /\ len (sanitize_filename filename) <= 255.
Proof.
  unfold sanitize_filename.
  set (clean := remove_chars forbidden_in_filename filename).
  assert (Hclean : all_chars (fun c => negb (forbidden_in_filename c)) clean
                   = true) by apply all_chars_remove.
  split.
  - apply all_chars_rstrip, all_chars_lstrip.
    destruct (len clean >? 255); [|exact Hclean].
    now apply all_chars_take.
  - pose proof (length_strip
                  (if len clean >? 255 then slice_to clean 255 else clean)) as Hs.
    destruct (Z.gtb_spec (len clean) 255) as [Hgt|Hle].
    + unfold slice_to in *. rewrite length_take in Hs.
      assert (Hc : (clamp 255 (String.length clean) <= 255)%nat).
      { unfold clamp. change (255 <? 0) with false. cbv iota. lia. }
      unfold len. lia.
    + unfold len in *. lia.
Qed.

(** X5.  A sanitized file name holds none of the nine characters the
    function removes and has at most 255 characters. *)
Theorem sanitize_filename_safe (filename : string) :
  all_chars (fun c => negb (forbidden_in_filename c))
    (sanitize_filename filename) = true
  /\ len (sanitize_filename filename) <= 255.
Proof. apply sanitize_filename_shape. Qed.

(** X6.  Sanitizing is idempotent: a sanitized name is left as it is. *)
Theorem sanitize_filename_idempotent (filename : string) :
  sanitize_filename (sanitize_filename filename) = sanitize_filename filename.
Proof.
  destruct (sanitize_filename_shape filename) as [Hsafe Hlen].
  unfold sanitize_filename at 1.
  rewrite (remove_chars_clean _ _ Hsafe).
  destruct (Z.gtb_spec (len (sanitize_filename filename)) 255); [lia|].
  unfold sanitize_filename. apply strip_idempotent.
Qed.

(** *** [get_business_days] *)

Lemma datetime_le_spec (a b : datetime) :
  datetime_le a b = true
  <-> day a < day b \/ (day a = day b /\ usec a <= usec b).
Proof.
  unfold datetime_le.
  destruct (Z.ltb_spec (day a) (day b)), (Z.eqb_spec (day a) (day b)),
    (Z.leb_spec (usec a) (usec b)); simpl; split; auto; try lia;
    discriminate.
Qed.

Lemma datetime_le_false (a b : datetime) :
  datetime_le a b = false
  <-> day b < day a \/ (day a = day b /\ usec b < usec a).
Proof.
  unfold datetime_le.
  destruct (Z.ltb_spec (day a) (day b)), (Z.eqb_spec (day a) (day b)),
    (Z.leb_spec (usec a) (usec b)); simpl; split; auto; try lia;
    discriminate.
Qed.

(** One round of the loop, when the date is in range and not the last. *)
Lemma business_loop_step (fuel : nat) (n : Z) (cur end_date : datetime) :
  datetime_le cur end_date = true ->
  day cur + 1 <= max_ordinal ->
  business_loop (S fuel) n cur end_date
  = business_loop fuel
      (n + (if is_weekend (DateTime (day cur) 0) then 0 else 1))
      (DateTime (day cur + 1) (usec cur)) end_date.
Proof.
  intros Hle Hmax. simpl. rewrite Hle. unfold add_one_day.
  destruct (Z.leb_spec (day cur + 1) max_ordinal); [|lia].
  change (is_weekend (DateTime (day cur) 0)) with (is_weekend cur).
  destruct (is_weekend cur); simpl; [now rewrite Z.add_0_r | reflexivity].
Qed.

(** [k] rounds of the loop, over [k] days that are all in range. *)
Lemma business_loop_days (end_date : datetime) (k : nat) :
  forall (fuel : nat) (n : Z) (cur : datetime),
    (k = O
     \/ datetime_le (DateTime (day cur + Z.of_nat k - 1) (usec cur)) end_date
        = true) ->
    day cur + Z.of_nat k <= max_ordinal ->
    business_loop (k + fuel) n cur end_date
    = business_loop fuel (n + workdays (day cur) k)
        (DateTime (day cur + Z.of_nat k) (usec cur)) end_date.
Proof.
  induction k as [|k IH]; intros fuel n cur Hin Hmax.
  - destruct cur as [d u]. simpl. now rewrite !Z.add_0_r.
  - destruct Hin as [Hin|Hin]; [discriminate|].
    apply datetime_le_spec in Hin. simpl in Hin.
    change (S k + fuel)%nat with (S (k + fuel)).
    rewrite business_loop_step;
      [| apply datetime_le_spec; lia | lia].
    rewrite IH; simpl day; simpl usec.
    + cbn [workdays]. f_equal; [lia|]. f_equal. lia.
    + destruct k as [|k]; [now left|]. right.
      apply datetime_le_spec. simpl. lia.
    + lia.
Qed.

Lemma residue_shift (d i : Z) :
  (d + i + 6) mod 7 = ((d + 6) mod 7 + i) mod 7.
Proof.
  replace (d + i + 6) with (d + 6 + i) by lia.
  now rewrite Zplus_mod_idemp_l.
Qed.

(** Seven days in a row hold five working days, whatever the first. *)
Lemma workdays_week (d : Z) : workdays d 7 = 5.
Proof.
  cbn [workdays]. unfold is_weekend, weekday. simpl day.
  rewrite !residue_shift.
  pose proof (Z.mod_pos_bound (d + 6) 7 ltac:(lia)) as Hw.
  set (w := (d + 6) mod 7) in *.
  assert (Hcases : w = 0 \/ w = 1 \/ w = 2 \/ w = 3 \/ w = 4 \/ w = 5
                   \/ w = 6) by lia.
  clearbody w.
  destruct Hcases as [-> | [-> | [-> | [-> | [-> | [-> | ->]]]]]];
    reflexivity.
Qed.

Lemma workdays_app (a b : nat) :
  forall d : Z,
    workdays d (a + b) = workdays d a + workdays (d + Z.of_nat a) b.
Proof.
  induction a as [|a IH]; intros d.
  - simpl. now rewrite Z.add_0_r.
  - cbn [Nat.add workdays]. rewrite IH.
    replace (d + 1 + Z.of_nat a) with (d + Z.of_nat (S a)) by lia. lia.
Qed.

Lemma workdays_weeks (k : nat) :
  forall d : Z, workdays d (7 * k) = 5 * Z.of_nat k.
Proof.
  induction k as [|k IH]; intros d; [reflexivity|].
  replace (7 * S k)%nat with (7 + 7 * k)%nat by lia.
  rewrite workdays_app, workdays_week, IH. lia.
Qed.

(** The loop never runs out of fuel. *)
Lemma business_loop_fuel (end_date : datetime) (fuel : nat) :
  forall (n : Z) (cur : datetime),
    day end_date - day cur + 1 <= Z.of_nat fuel ->
    exists r, business_loop fuel n cur end_date = Some r.
Proof.
  induction fuel as [|fuel IH]; intros n cur Hfuel; simpl.
  - destruct (datetime_le cur end_date) eqn:Hle; [|eauto].
    apply datetime_le_spec in Hle. lia.
  - destruct (datetime_le cur end_date) eqn:Hle; [|eauto].
    unfold add_one_day. destruct (_ <=? _); [|eauto].
    apply IH. simpl. lia.
Qed.

Lemma get_business_days_returns (start_date end_date : datetime) :
  exists r, get_business_days start_date end_date = Some r.
Proof. apply business_loop_fuel. lia. Qed.

(** What the loop computes when it does not reach the last day of the
    calendar. *)
Lemma get_business_days_run (start_date end_date : datetime) :
  datetime_le start_date end_date = true ->
  day start_date + Z.of_nat (days_visited start_date end_date)
    <= max_ordinal ->
  get_business_days start_date end_date
  = Some (Return (workdays (day start_date)
                    (days_visited start_date end_date))).
Proof.
  intros Hle Hmax. apply datetime_le_spec in Hle.
  unfold get_business_days.
  set (k := days_visited start_date end_date) in *.
  assert (Hk : Z.of_nat k = day end_date - day start_date
                 + (if usec start_date <=? usec end_date then 1 else 0)).
  { unfold k, days_visited.
    destruct (Z.leb_spec (usec start_date) (usec end_date)); lia. }
  assert (Hfuel : exists rest,
            Z.to_nat (day end_date - day start_date + 1) = (k + rest)%nat).
  { exists (Z.to_nat (day end_date - day start_date + 1) - k)%nat.
    destruct (Z.leb_spec (usec start_date) (usec end_date)); lia. }
  destruct Hfuel as [rest ->].
  rewrite business_loop_days; [| |exact Hmax].
  - assert (Hout : datetime_le
                     (DateTime (day start_date + Z.of_nat k) (usec start_date))
                     end_date = false).
    { apply datetime_le_false. simpl.
      destruct (Z.leb_spec (usec start_date) (usec end_date)); lia. }
    destruct rest; simpl; now rewrite Hout.
  - destruct k as [|k]; [now left|]. right.
    apply datetime_le_spec. simpl.
    destruct (Z.leb_spec (usec start_date) (usec end_date)); lia.
Qed.

(** X7.  From a start to an end that is not before it, and short of the
    last day of the calendar, [get_business_days] returns the number of
    days that are not Saturday or Sunday among the days it visits: all
    the days from the first to the last when the time of day of the start
    is not after that of the end, and all but the last otherwise. *)
Theorem get_business_days_counts (start_date end_date : datetime) :
  datetime_le start_date end_date = true ->
  day start_date + Z.of_nat (days_visited start_date end_date)
    <= max_ordinal ->
  get_business_days start_date end_date
  = Some (Return (workdays (day start_date)
                    (days_visited start_date end_date)))
  /\ Z.of_nat (days_visited start_date end_date)
     = day end_date - day start_date
       + (if usec start_date <=? usec end_date then 1 else 0).
Proof.
  intros Hle Hmax. split; [now apply get_business_days_run|].
  apply datetime_le_spec in Hle. unfold days_visited.
  destruct (Z.leb_spec (usec start_date) (usec end_date)); lia.
Qed.

(** X8.  Over [k] whole weeks, from any day to the day six days after it
    or a multiple of seven later, at the same time of day, there are
    [5 * k] business days, when the end is not the last day of the
    calendar. *)
Theorem get_business_days_whole_weeks (start_date : datetime) (k : nat) :
  (0 < k)%nat ->
  day start_date + 7 * Z.of_nat k <= max_ordinal ->
  get_business_days start_date
    (DateTime (day start_date + 7 * Z.of_nat k - 1) (usec start_date))
  = Some (Return (5 * Z.of_nat k)).
Proof.
  intros Hk Hmax.
  set (end_date := DateTime (day start_date + 7 * Z.of_nat k - 1)
                     (usec start_date)).
  assert (Hvisited : days_visited start_date end_date = (7 * k)%nat).
  { unfold days_visited, end_date. simpl.
    destruct (Z.leb_spec (usec start_date) (usec start_date)); lia. }
  rewrite get_business_days_run.
  - now rewrite Hvisited, workdays_weeks.
  - apply datetime_le_spec. unfold end_date. simpl. lia.
  - rewrite Hvisited. lia.
Qed.

(** X9.  When the end is on the last day of the calendar and the start,
    not after it, has a time of day that is not later, the loop steps
    past the last day: [get_business_days] raises [OverflowError] and
    returns no count. *)
Theorem get_business_days_overflows (start_date end_date : datetime) :
  datetime_le start_date end_date = true ->
  usec start_date <= usec end_date ->
  day end_date = max_ordinal ->
  get_business_days start_date end_date
  = Some (Raise (Exception "date value out of range")).
Proof.
  intros Hle Husec Hlast. apply datetime_le_spec in Hle.
  unfold get_business_days.
  set (k := Z.to_nat (day end_date - day start_date)).
  replace (Z.to_nat (day end_date - day start_date + 1)) with (k + 1)%nat
    by lia.
  rewrite business_loop_days.
  - simpl.
    assert (Hin : datetime_le
                    (DateTime (day start_date + Z.of_nat k) (usec start_date))
                    end_date = true).
    { apply datetime_le_spec. simpl. lia. }
    rewrite Hin. unfold add_one_day. simpl.
    destruct (Z.leb_spec (day start_date + Z.of_nat k + 1) max_ordinal);
      [lia | reflexivity].
  - destruct k as [|k'] eqn:Hk; [now left|]. right.
    apply datetime_le_spec. simpl. lia.
  - lia.
Qed.

(** A start after the end gives zero. *)
Lemma get_business_days_empty (start_date end_date : datetime) :
  datetime_le start_date end_date = false ->
  get_business_days start_date end_date = Some (Return 0).
Proof.
  intros Hle. unfold get_business_days.
  destruct (Z.to_nat _); simpl; now rewrite Hle.
Qed.

(** *** [split_message], further *)

Import Helpers HelpersFacts.

Lemma cut_long_line_bound (max_length : Z) :
  0 < max_length ->
  forall fuel parts line parts' rest,
    Forall (fun chunk => len chunk <= max_length) parts ->
    cut_long_line fuel parts line max_length = Some (parts', rest) ->
    Forall (fun chunk => len chunk <= max_length) parts'
    /\ len rest <= max_length.
Proof.
  intros Hpos. induction fuel as [|fuel IH];
    intros parts line parts' rest Hparts; simpl;
    destruct (Z.gtb_spec (len line) max_length) as [Hgt|Hle];
    try discriminate.
  - intros [= <- <-]. auto.
  - apply IH. apply Forall_app. split; [exact Hparts|].
    constructor; [|constructor].
    unfold slice_to, len. rewrite length_take.
    unfold clamp. destruct (Z.ltb_spec max_length 0); lia.
  - intros [= <- <-]. auto.
Qed.

Lemma split_step_bound (max_length : Z) acc line acc' :
  0 < max_length ->
  Forall (fun chunk => len chunk <= max_length) acc.1 ->
  len acc.2 <= max_length ->
  (truthy acc.2 = true -> len line <= max_length) ->
  split_step max_length acc line = Some acc' ->
  Forall (fun chunk => len chunk <= max_length) acc'.1
  /\ len acc'.2 <= max_length.
Proof.
  intros Hpos Hparts Hcur Hline. destruct acc as [parts cur]. simpl in *.
  unfold split_step.
  destruct (Z.gtb_spec (len cur + len line + 1) max_length) as [Hgt|Hle].
  - destruct (truthy cur) eqn:Ht.
    + intros [= <-]. simpl. split; [|auto].
      apply Forall_app. split; [exact Hparts|].
      constructor; [|constructor].
      pose proof (length_strip cur). unfold len in *. lia.
    + intros Hcut. destruct acc' as [parts' rest].
      now apply (cut_long_line_bound max_length Hpos _ _ _ _ _ Hparts Hcut).
  - intros [= <-]. simpl. split; [exact Hparts|].
    destruct (truthy cur).
    + rewrite !len_append. change (len nl) with 1. lia.
    + assert (0 <= len cur) by (unfold len; lia). lia.
Qed.

Lemma split_loop_bound (max_length : Z) lines :
  0 < max_length ->
  Forall (fun line => len line <= max_length) lines ->
  forall acc acc',
    Forall (fun chunk => len chunk <= max_length) acc.1 ->
    len acc.2 <= max_length ->
    split_loop max_length acc lines = Some acc' ->
    Forall (fun chunk => len chunk <= max_length) acc'.1
    /\ len acc'.2 <= max_length.
Proof.
  intros Hpos Hlines. induction Hlines as [|line rest Hline Hrest IH];
    intros acc acc' Hparts Hcur; simpl.
  - intros [= <-]. auto.
  - destruct (split_step max_length acc line) as [acc1|] eqn:Hstep;
      [|discriminate].
    destruct (split_step_bound max_length acc line acc1 Hpos Hparts Hcur
                (fun _ => Hline) Hstep) as [Hp1 Hc1].
    now apply IH.
Qed.

Lemma split_nonempty (sep : ascii) (s : string) :
  exists first rest, split sep s = first :: rest.
Proof.
  induction s as [|c s (first & rest & IH)]; simpl; [eauto|].
  destruct (Ascii.eqb c sep); [eauto|]. rewrite IH. eauto.
Qed.

(** X10.  With a positive limit, [split_message] does keep every chunk
    within the limit when no line after the first is longer than the
    limit; the first line may have any length, it is cut.  A text without
    line breaks is such a text. *)
Theorem split_message_bounded (text : string) (max_length : Z) :
  0 < max_length ->
  Forall (fun line => len line <= max_length) (tail (split newline text)) ->
  exists chunks,
    split_message text max_length = Some chunks
    /\ Forall (fun chunk => len chunk <= max_length) chunks.
Proof.
  intros Hpos Hlines. unfold split_message.
  destruct (Z.leb_spec (len text) max_length) as [Hle|Hgt].
  { rewrite orb_true_r. exists [text]. split; [reflexivity|].
    constructor; [exact Hle | constructor]. }
  destruct (truthy text) eqn:Ht.
  2:{ exists [text]. split; [reflexivity|].
      destruct text; [|discriminate]. constructor; [|constructor].
      unfold len. simpl. lia. }
  simpl.
  destruct (split_nonempty newline text) as (first & rest & Hsplit).
  rewrite Hsplit in *. simpl in Hlines. cbn [split_loop].
  destruct (split_step_terminates max_length ([], EmptyString) first Hpos)
    as [acc1 Hstep].
  rewrite Hstep.
  destruct (split_step_bound max_length ([], EmptyString) first acc1 Hpos)
    as [Hp1 Hc1]; [constructor | unfold len; simpl; lia | discriminate
                   | exact Hstep |].
  destruct (split_loop_terminates max_length rest Hpos acc1) as [acc2 Hloop].
  rewrite Hloop.
  destruct (split_loop_bound max_length rest Hpos Hlines acc1 acc2 Hp1 Hc1 Hloop)
    as [Hp2 Hc2].
  destruct acc2 as [parts cur]. simpl in *.
  destruct (truthy cur); eexists; (split; [reflexivity|]); [|exact Hp2].
  apply Forall_app. split; [exact Hp2|]. constructor; [|constructor].
  pose proof (length_strip cur). unfold len in *. lia.
Qed.

(** X12.  For every positive limit [split_message] returns: the loop
    that cuts a long line takes a character or more off the line in each
    round. *)
Theorem split_message_returns (text : string) (max_length : Z) :
  0 < max_length -> exists parts, split_message text max_length = Some parts.
Proof.
  intros Hpos. unfold split_message.
  destruct (_ || _); [eauto|].
  destruct (split_loop_terminates max_length (split newline text) Hpos
              ([], EmptyString)) as [[parts cur] ->].
  eauto.
Qed.

(** With a limit that is not positive the inner loop makes no progress:
    no amount of fuel lets it end. *)
Lemma cut_long_line_negative (max_length : Z) :
  max_length < 0 ->
  forall fuel parts line, cut_long_line fuel parts line max_length = None.
Proof.
  intros Hneg. induction fuel as [|fuel IH]; intros parts line; simpl;
    (destruct (Z.gtb_spec (len line) max_length) as [Hgt|Hle];
     [|unfold len in Hle; lia]); [reflexivity | apply IH].
Qed.

Lemma cut_long_line_zero :
  forall fuel parts line,
    truthy line = true -> cut_long_line fuel parts line 0 = None.
Proof.
  induction fuel as [|fuel IH]; intros parts line Ht; simpl;
    (destruct (Z.gtb_spec (len line) 0) as [Hgt|Hle];
     [|apply truthy_len in Ht; lia]); [reflexivity|].
  apply IH. unfold slice_from, clamp. simpl.
  now destruct line.
Qed.

(** X11.  With a negative limit [split_message] never returns on a text
    that is not empty, and with the limit 0 it never returns on a text
    whose first line is not empty: the loop that cuts a long line goes
    round without end. *)
Theorem split_message_never_returns (text : string) (max_length : Z) :
  truthy text = true ->
  max_length < 0
  \/ (max_length = 0 /\ truthy (hd EmptyString (split newline text)) = true) ->
  split_message text max_length = None.
Proof.
  intros Ht Hcase. unfold split_message. rewrite Ht. simpl.
  assert (Hlen : 0 < len text) by now apply truthy_len.
  destruct (Z.leb_spec (len text) max_length) as [Hle|Hgt]; [lia|].
  destruct (split_nonempty newline text) as (first & rest & Hsplit).
  rewrite Hsplit in *. cbn [split_loop split_step hd] in *.
  assert (Hover : (len EmptyString + len first + 1 >? max_length) = true).
  { apply Z.gtb_lt. unfold len. simpl. lia. }
  rewrite Hover. simpl truthy. cbv iota.
  destruct Hcase as [Hneg | [-> Hfirst]].
  - now rewrite cut_long_line_negative.
  - now rewrite cut_long_line_zero.
Qed.

(** *** Runs of the helpers *)

(** Monday 2024-03-04 at 10:00 to Tuesday 2024-03-12 at 09:00: the
    Tuesday is not visited, the eight days before it hold six working
    days. *)
Lemma get_business_days_counts_witness :
  let start_date := DateTime 738949 36000000000 in
  let end_date := DateTime 738957 32400000000 in
  get_business_days start_date end_date = Some (Return 6)
  /\ Z.of_nat (days_visited start_date end_date) = 8.
Proof.
  intros start_date end_date.
  destruct (get_business_days_counts start_date end_date) as [Hrun Hdays];
    [reflexivity | vm_compute; discriminate |].
  split; [exact Hrun | exact Hdays].
Defined.

Lemma get_business_days_whole_weeks_witness :
  get_business_days (DateTime 738951 0) (DateTime (738951 + 7 * 2 - 1) 0)
  = Some (Return 10).
Proof.
  apply (get_business_days_whole_weeks (DateTime 738951 0) 2);
    [lia | vm_compute; discriminate].
Defined.

Lemma get_business_days_overflows_witness :
  get_business_days (DateTime 3652058 0) (DateTime 3652059 0)
  = Some (Raise (Exception "date value out of range")).
Proof.
  apply (get_business_days_overflows (DateTime 3652058 0) (DateTime 3652059 0));
    [reflexivity | simpl; lia | reflexivity].
Defined.

Lemma split_message_bounded_witness :
  exists chunks,
    split_message ("abcdefghij" +:+ nl +:+ "kl") 4 = Some chunks
    /\ Forall (fun chunk => len chunk <= 4) chunks.
Proof.
  apply (split_message_bounded ("abcdefghij" +:+ nl +:+ "kl") 4); [lia|].
  vm_compute. constructor; [discriminate | constructor].
Defined.

Lemma split_message_never_returns_witness :
  split_message "abc" (-1) = None /\ split_message "abc" 0 = None.
Proof.
  split.
  - apply (split_message_never_returns "abc" (-1)); [reflexivity|].
    left. lia.
  - apply (split_message_never_returns "abc" 0); [reflexivity|].
    right. split; reflexivity.
Defined.

Lemma split_message_returns_witness :
  0 < 4 /\ exists parts, split_message short_then_long 4 = Some parts.
Proof.
  split; [lia|]. apply (split_message_returns short_then_long 4). lia.
Defined.

End HelpersRestFacts.

(** ** The sheets manager, further *)

Module GSheetsRestFacts.
Import Py Py.Notations GSheets GSheetsFacts.

(** *** The dictionary of a row *)

Lemma imap_pair_snd {A} (l : list A) : (imap pair l).*2 = l.
Proof.
  apply list_eq. intros i.
  rewrite list_lookup_fmap, list_lookup_imap.
  now destruct (l !! i).
Qed.

Lemma fold_insert_notin (g : nat -> string) (l : list (nat * string))
    (h : string) :
  forall d : Row,
    h ∉ l.*2 ->
    fold_left (fun d ih => <[ih.2 := g ih.1]> d) l d !! h = d !! h.
Proof.
  induction l as [|[j k] l IH]; intros d Hnotin; [reflexivity|].
  simpl in *. apply not_elem_of_cons in Hnotin as [Hne Hnotin].
  rewrite IH by exact Hnotin. now rewrite lookup_insert_ne.
Qed.

Lemma fold_insert_lookup (g : nat -> string) (l : list (nat * string))
    (i : nat) (h : string) :
  forall d : Row,
    NoDup l.*2 ->
    (i, h) ∈ l ->
    fold_left (fun d ih => <[ih.2 := g ih.1]> d) l d !! h = Some (g i).
Proof.
  induction l as [|[j k] l IH]; intros d Hnodup Hin.
  - now apply elem_of_nil in Hin.
  - simpl in *. apply NoDup_cons in Hnodup as [Hk Hnodup].
    apply elem_of_cons in Hin as [[= <- <-] | Hin].
    + rewrite fold_insert_notin by exact Hk. apply lookup_insert_eq.
    + now apply IH.
Qed.

Lemma fold_insert_dom (g : nat -> string) (l : list (nat * string)) :
  forall d : Row,
    dom (fold_left (fun d ih => <[ih.2 := g ih.1]> d) l d)
    = dom d ∪ list_to_set l.*2.
Proof.
  induction l as [|[j k] l IH]; intros d; simpl.
  - now rewrite union_empty_r_L.
  - rewrite IH, dom_insert_L.
    now rewrite (union_comm_L {[k]} (dom d)), <- union_assoc_L.
Qed.

Lemma pad_row_lookup (headers row : list string) (i : nat) :
  default "" (pad_row headers row !! i) = default "" (row !! i).
Proof.
  unfold pad_row. destruct (row !! i) as [cell|] eqn:Hrow.
  - now rewrite (lookup_app_l_Some _ _ _ _ Hrow).
  - apply lookup_ge_None in Hrow. rewrite lookup_app_r by exact Hrow.
    destruct (replicate _ _ !! _) as [cell|] eqn:Hrep; [|reflexivity].
    apply lookup_replicate in Hrep as [-> _]. reflexivity.
Qed.

Lemma row_dict_keys_aux (headers row : list string) :
  dom (row_dict headers row) = list_to_set headers.
Proof.
  unfold row_dict.
  rewrite (fold_insert_dom
             (fun i => default "" (pad_row headers row !! i))).
  now rewrite imap_pair_snd, dom_empty_L, union_empty_l_L.
Qed.

(** X13.  The keys of the dictionary of a row are the column names of the
    header row, whatever the row holds. *)
Theorem row_dict_keys (headers row : list string) :
  dom (row_dict headers row) = list_to_set headers.
Proof. apply row_dict_keys_aux. Qed.

(** X14.  When the column names are distinct, the dictionary of a row
    gives each column the cell at its position in the row, and the empty
    string when the row has no cell there; cells beyond the last column
    are dropped. *)
Theorem row_dict_lookup (headers row : list string) (i : nat) (h : string) :
  NoDup headers ->
  headers !! i = Some h ->
  row_dict headers row !! h = Some (default "" (row !! i))
  /\ size (row_dict headers row) = length headers.
Proof.
  intros Hnodup Hh. split.
  - unfold row_dict.
    rewrite (fold_insert_lookup
               (fun i => default "" (pad_row headers row !! i)) _ i h).
    + now rewrite pad_row_lookup.
    + now rewrite imap_pair_snd.
    + apply list_elem_of_lookup. exists i.
      now rewrite list_lookup_imap, Hh.
  - rewrite <- size_dom, row_dict_keys_aux.
    now rewrite size_list_to_set.
Qed.

(** *** The cache, further *)

Section CacheRest.
Context {World : Type} `{!Runtime World}.
Implicit Types (T : string) (σ : state GoogleSheetsManager World).

(** The fetch of a sheet that has no data rows: no values at all, or the
    header row alone. *)
Lemma fetch_no_rows T σ (id : string) (result : option (list (list string)))
    (w' : World) :
  available (self σ) = Some id ->
  values_get_execute id (T +:+ "!A:Z") (world σ) = (Return result, w') ->
  default [] result = [] \/ (exists headers, default [] result = [headers]) ->
  exists σ',
    _fetch_sheet_data T σ = (Return [], σ')
    /\ errors (trace σ') = errors (trace σ).
Proof.
  destruct σ as [s w tr]. simpl. intros Hav Hget Hrows.
  unfold _fetch_sheet_data, bind, get_self, try_except, log, emit, extern, ret.
  simpl. rewrite Hav. simpl. rewrite Hget.
  destruct Hrows as [-> | [headers ->]]; simpl;
    eexists; (split; [reflexivity|]); simpl;
    rewrite !errors_app; simpl; now rewrite !app_nil_r.
Qed.

(** X15.  A sheet without data rows (no values, or only the header row)
    gives the caller the same empty list as a failed fetch, but leaves no
    error in the log. *)
Theorem empty_sheet_is_silent T σ σ1 (id : string)
    (result : option (list (list string))) (w' : World) :
  _is_cache_valid T σ = (Return false, σ1) ->
  available (self σ1) = Some id ->
  values_get_execute id (T +:+ "!A:Z") (world σ1) = (Return result, w') ->
  default [] result = [] \/ (exists headers, default [] result = [headers]) ->
  (get_sheet_data_sync T σ).1 = Return []
  /\ errors (trace (get_sheet_data_sync T σ).2) = errors (trace σ).
Proof.
  intros Hv Hav Hget Hrows.
  destruct (is_cache_valid_returns T σ) as (b & σ1' & Hv' & _ & Htr).
  rewrite Hv in Hv'. injection Hv' as <- <-.
  destruct (get_miss T σ σ1 Hv) as [-> _].
  destruct (fetch_no_rows T σ1 id result w' Hav Hget Hrows)
    as (σf & Hf & Herr).
  destruct (refetch_run T σ1) as (data & σf' & Hf' & _ & ->).
  rewrite Hf in Hf'. injection Hf' as <- <-. simpl.
  split; [reflexivity|]. now rewrite Herr, Htr.
Qed.

(** X16.  A failed fetch is kept like any other result: after it the
    cache holds the empty list for the table, and until the cache
    duration has passed every [get] returns the empty list without
    asking the service, whatever the service would answer by then. *)
Theorem failed_fetch_is_remembered T σ σ1 :
  _is_cache_valid T σ = (Return false, σ1) ->
  fetch_fails T σ1 ->
  let m := self (get_sheet_data_sync T σ).2 in
  exists stored : Z,
    _cache m !! T = Some []
    /\ _cache_timestamps m !! T = Some stored
    /\ forall (w : World) (tr : list event),
         (time_time w).1 - stored < _cache_duration m ->
         get_sheet_data_sync T (State m w tr)
         = (Return [], State m (time_time w).2 tr).
Proof.
  intros Hv Hfail m.
  destruct (get_miss T σ σ1 Hv) as [Hget _].
  destruct (fetch_failure T σ1 Hfail) as (msg & σf & Hf & _).
  destruct (refetch_run T σ1) as (data & σf' & Hf' & _ & Hr).
  rewrite Hf in Hf'. injection Hf' as <- <-.
  subst m. rewrite Hget, Hr. simpl.
  exists (time_time (world σf)).1.
  rewrite !lookup_insert_eq. split; [reflexivity|]. split; [reflexivity|].
  intros w tr Hfresh.
  set (m := Manager _ _ _ _ _).
  assert (Hvalid : _is_cache_valid T (State m w tr)
                   = (Return true, State m (time_time w).2 tr)).
  { rewrite (is_cache_valid_present T (State m w tr) (time_time (world σf)).1);
      [|apply lookup_insert_eq].
    simpl in *.
    destruct (Z.ltb_spec ((time_time w).1 - (time_time (world σf)).1)
                (_cache_duration (self σ1))); [reflexivity | lia]. }
  destruct (get_hit T _ _ Hvalid) as [-> _]. simpl.
  now rewrite lookup_insert_eq.
Qed.

(** X17.  A [get] of one table leaves the entries of every other table,
    rows and time stamp, as they were, and the settings of the manager
    too. *)
Theorem get_leaves_other_tables T (T' : string) σ :
  T <> T' ->
  let m' := self (get_sheet_data_sync T σ).2 in
  _cache m' !! T' = _cache (self σ) !! T'
  /\ _cache_timestamps m' !! T' = _cache_timestamps (self σ) !! T'
  /\ _cache_duration m' = _cache_duration (self σ)
  /\ sheets_id m' = sheets_id (self σ)
  /\ service m' = service (self σ).
Proof.
  intros Hne m'. subst m'.
  destruct (is_cache_valid_returns T σ) as ([|] & σ1 & Hv & Hs & _).
  - destruct (get_hit T σ σ1 Hv) as [-> _]. simpl. rewrite Hs. auto.
  - destruct (get_miss T σ σ1 Hv) as [-> _].
    destruct (refetch_run T σ1) as (data & σf & _ & _ & ->). simpl.
    rewrite !lookup_insert_ne by exact Hne. rewrite Hs. auto.
Qed.

(** X18.  [clear_cache] with a name that is not empty removes the entry
    of that table from both dictionaries and leaves every other table's
    entry; with the empty name it removes every entry, exactly as
    [clear_cache()] does. *)
Theorem clear_cache_scope (name : string) σ :
  (PyStr.truthy name = true ->
     let m' := self (clear_cache (Some name) σ).2 in
     _cache m' !! name = None
     /\ _cache_timestamps m' !! name = None
     /\ forall T', T' <> name ->
          _cache m' !! T' = _cache (self σ) !! T'
          /\ _cache_timestamps m' !! T' = _cache_timestamps (self σ) !! T')
  /\ clear_cache (Some "") σ = clear_cache None σ
  /\ _cache (self (clear_cache None σ).2) = ∅
  /\ _cache_timestamps (self (clear_cache None σ).2) = ∅.
Proof.
  split; [|split; [reflexivity|split; reflexivity]].
  intros Hname m'. subst m'.
  destruct (clear_cache_run (Some name) σ) as [msg ->]. simpl.
  rewrite Hname, !lookup_delete_eq. split; [reflexivity|].
  split; [reflexivity|]. intros T' Hne.
  now rewrite !lookup_delete_ne by auto.
Qed.

(** X19.  Two [get]s of a table in a row, the second within the cache
    duration of the first: the second returns the rows the first
    returned, and the service was asked once in all. *)
Theorem two_gets_one_request T σ σ1 :
  _is_cache_valid T σ = (Return false, σ1) ->
  let first := get_sheet_data_sync T σ in
  let second := get_sheet_data_sync T first.2 in
  exists (data : list Row) (stored : Z),
    first.1 = Return data
    /\ _cache_timestamps (self first.2) !! T = Some stored
    /\ ((time_time (world first.2)).1 - stored
          < _cache_duration (self first.2) ->
        second.1 = Return data
        /\ requests (trace second.2) =
             requests (trace σ) ++
               match available (self σ) with
               | Some id => [(id, T +:+ "!A:Z")]
               | None => []
               end).
Proof.
  intros Hv first second.
  destruct (is_cache_valid_returns T σ) as (b & σ1' & Hv' & Hs & Htr).
  rewrite Hv in Hv'. injection Hv' as <- <-.
  destruct (get_miss T σ σ1 Hv) as [Hget _].
  destruct (fetch_returns T σ1) as (data & σf & Hf & Hself & Hreq).
  destruct (refetch_run T σ1) as (data' & σf' & Hf' & _ & Hr).
  rewrite Hf in Hf'. injection Hf' as <- <-.
  subst second first. rewrite Hget, Hr. simpl.
  exists data, (time_time (world σf)).1.
  rewrite lookup_insert_eq. split; [reflexivity|]. split; [reflexivity|].
  intros Hfresh.
  set (σ2 := State _ _ _).
  assert (Hvalid : _is_cache_valid T σ2
                   = (Return true,
                      State (self σ2) (time_time (world σ2)).2 (trace σ2))).
  { rewrite (is_cache_valid_present T σ2 (time_time (world σf)).1);
      [|apply lookup_insert_eq].
    simpl in *.
    destruct (Z.ltb_spec
                ((time_time (time_time (world σf)).2).1
                 - (time_time (world σf)).1)
                (_cache_duration (self σ1))); [reflexivity | lia]. }
  destruct (get_hit T _ _ Hvalid) as [-> _]. simpl.
  rewrite lookup_insert_eq. split; [reflexivity|].
  now rewrite Hreq, Htr, Hs.
Qed.

End CacheRest.
End GSheetsRestFacts.

(** ** The sheets manager, further: runs *)

Module GSheetsRestRuns.
Import Py GSheets Concrete Inputs GSheetsFacts GSheetsRestFacts.

(** A row shorter than the header row: the missing cell reads as the
    empty string. *)
Lemma row_dict_lookup_witness :
  row_dict ["fecha"; "concepto"; "monto"] ["2024-03-10"] !! "monto" = Some ""
  /\ size (row_dict ["fecha"; "concepto"; "monto"] ["2024-03-10"]) = 3%nat.
Proof.
  apply (row_dict_lookup ["fecha"; "concepto"; "monto"] ["2024-03-10"]
           2 "monto"); [|reflexivity].
  repeat (apply NoDup_cons; split; [compute_done|]). apply NoDup_nil_2.
Defined.

(** A sheet that holds its header row only. *)
Lemma empty_sheet_is_silent_witness :
  let σ := State manager_new
             (world_with five_past_nine [["fecha"; "concepto"; "monto"]]) [] in
  (get_sheet_data_sync "pagos" σ).1 = Return []
  /\ errors (trace (get_sheet_data_sync "pagos" σ).2) = [].
Proof.
  intros σ.
  apply (empty_sheet_is_silent "pagos" σ σ "sheet-1"
           (Some [["fecha"; "concepto"; "monto"]]) (world σ)).
  - reflexivity.
  - reflexivity.
  - reflexivity.
  - right. eexists. reflexivity.
Defined.

(** The service is down at the first call and back at the second, which
    still answers with the empty list. *)
Lemma failed_fetch_is_remembered_witness :
  let σ := State manager_new world_down [] in
  let m := self (get_sheet_data_sync "pagos" σ).2 in
  let w := world_with five_past_nine pagos_sheet in
  get_sheet_data_sync "pagos" (State m w []) = (Return [], State m w []).
Proof.
  intros σ m w.
  assert (Hfail : fetch_fails "pagos" σ).
  { exists (HttpError "503 Service Unavailable"). reflexivity. }
  destruct (failed_fetch_is_remembered "pagos" σ σ eq_refl Hfail)
    as (stored & _ & Hstored & Hlater).
  assert (Hs : stored = 1100).
  { change (_cache_timestamps m !! "pagos" = Some stored) in Hstored.
    assert (Hm : _cache_timestamps m !! "pagos" = Some 1100)
      by (vm_compute; reflexivity).
    rewrite Hm in Hstored. now injection Hstored. }
  apply (Hlater w []). rewrite Hs. vm_compute. reflexivity.
Defined.

Lemma get_leaves_other_tables_witness :
  let σ := State manager_cached (world_with five_past_nine []) [] in
  let m' := self (get_sheet_data_sync "eventos" σ).2 in
  _cache m' !! "pagos" = Some pagos_rows
  /\ _cache_timestamps m' !! "pagos" = Some 1000.
Proof.
  intros σ m'.
  assert (Hne : "eventos" <> "pagos") by discriminate.
  destruct (get_leaves_other_tables "eventos" "pagos" σ Hne)
    as (Hc & Ht & _).
  split.
  - exact (eq_trans Hc (lookup_insert_eq _ _ _)).
  - exact (eq_trans Ht (lookup_insert_eq _ _ _)).
Defined.

Lemma clear_cache_scope_witness :
  let σ := State manager_cached (world_with five_past_nine []) [] in
  _cache (self (clear_cache (Some "pagos") σ).2) !! "pagos" = None
  /\ _cache (self (clear_cache (Some "eventos") σ).2) !! "pagos"
     = Some pagos_rows
  /\ clear_cache (Some "") σ = clear_cache None σ.
Proof.
  intros σ.
  destruct (clear_cache_scope "pagos" σ) as (Hp & Hempty & _).
  destruct (clear_cache_scope "eventos" σ) as (He & _).
  destruct (Hp eq_refl) as (Hgone & _).
  destruct (He eq_refl) as (_ & _ & Hother).
  assert (Hne : "pagos" <> "eventos") by discriminate.
  destruct (Hother "pagos" Hne) as (Hkept & _).
  split; [exact Hgone|]. split; [|exact Hempty].
  exact (eq_trans Hkept (lookup_insert_eq _ _ _)).
Defined.

Lemma two_gets_one_request_witness :
  let σ := State manager_new (world_with five_past_nine pagos_sheet) [] in
  let first := get_sheet_data_sync "pagos" σ in
  let second := get_sheet_data_sync "pagos" first.2 in
  first.1 = Return pagos_rows
  /\ second.1 = Return pagos_rows
  /\ requests (trace second.2) = [("sheet-1", "pagos!A:Z")].
Proof.
  intros σ first second.
  destruct (two_gets_one_request "pagos" σ σ eq_refl)
    as (data & stored & Hfirst & Hstored & Hsecond).
  assert (Hdata : first.1 = Return pagos_rows) by (vm_compute; reflexivity).
  assert (Hd : data = pagos_rows).
  { change (first.1 = Return data) in Hfirst.
    rewrite Hdata in Hfirst. now injection Hfirst. }
  assert (Hs : stored = 1100).
  { change (_cache_timestamps (self first.2) !! "pagos" = Some stored)
      in Hstored.
    assert (Hm : _cache_timestamps (self first.2) !! "pagos" = Some 1100)
      by (vm_compute; reflexivity).
    rewrite Hm in Hstored. now injection Hstored. }
  subst data stored.
  destruct Hsecond as (H2 & Hreq); [vm_compute; reflexivity|].
  split; [exact Hdata|]. split; [exact H2|exact Hreq].
Defined.

End GSheetsRestRuns.
